(** * AI Prompt Engineer: a shallow embedding of the Streamlit application

    The development follows the three source files:
    - [services.py]: the two module-level clients and the three helpers
      [call_openai_api], [save_to_airtable], [fetch_from_airtable];
    - [ui_components.py]: the two pages [main_app_page] and [admin_page];
    - [app.py]: the page router [main].

    A script run is a computation over a [world]: the Streamlit session
    state, the elements put on the screen so far and the calls made to the
    two remote services so far.  The remote services are oracles of the
    environment; what the user typed and clicked is the [widgets] record. *)

From Stdlib Require Import Ascii QArith.
From stdpp Require Import gmap strings list fin_maps.

(** ** Python strings

    A [str] is modelled by its UTF-8 encoding.  Truthiness of a [str] is
    non-emptiness, [str.strip] removes the Unicode white space at both
    ends. *)

Module Py.

Definition LF : string := String (ascii_of_nat 10) "".

(** [bool(s)] for a [str]. *)
Definition truthy (s : string) : bool :=
  match s with
  | EmptyString => false
  | String _ _ => true
  end.

(** [all(xs)] over a list of [str]. *)
Definition all (xs : list string) : bool := forallb truthy xs.

(** [a or b] for two [str] ([a] may be [None]). *)
Definition or_else (a : option string) (b : string) : string :=
  match a with
  | Some s => if truthy s then s else b
  | None => b
  end.

Definition bytes (l : list nat) : string :=
  String.string_of_list_ascii (map ascii_of_nat l).

(** The code points [c] with [c.isspace()], UTF-8 encoded: U+0009..U+000D,
    U+001C..U+0020, U+0085, U+00A0, U+1680, U+2000..U+200A, U+2028, U+2029,
    U+202F, U+205F, U+3000. *)
Definition whitespace : list string :=
  map bytes
    ([ [9]; [10]; [11]; [12]; [13]; [28]; [29]; [30]; [31]; [32];
       [194; 133]; [194; 160]; [225; 154; 128] ]
     ++ map (fun k => [226; 128; 128 + k]) (seq 0 11)
     ++ [ [226; 128; 168]; [226; 128; 169]; [226; 128; 175];
          [226; 129; 159]; [227; 128; 128] ])%list.

Definition drop_bytes (n : nat) (s : string) : string :=
  String.substring n (String.length s - n) s.

(** Removes the members of [ws] from the front of [s], one per unit of
    fuel. *)
Fixpoint lstrip_with (ws : list string) (fuel : nat) (s : string) : string :=
  match fuel with
  | O => s
  | S fuel' =>
      match List.find (fun w => String.prefix w s) ws with
      | Some w => lstrip_with ws fuel' (drop_bytes (String.length w) s)
      | None => s
      end
  end.

Definition lstrip (s : string) : string :=
  lstrip_with whitespace (String.length s) s.

Definition rstrip (s : string) : string :=
  String.rev (lstrip_with (map String.rev whitespace) (String.length s) (String.rev s)).

Definition strip (s : string) : string := rstrip (lstrip s).

(** [sep.join(xs)]. *)
Fixpoint join (sep : string) (xs : list string) : string :=
  match xs with
  | [] => ""
  | [x] => x
  | x :: rest => x +:+ sep +:+ join sep rest
  end.

(** The exceptions the program meets.  [APIError] stands for
    [openai.APIError] and its subclasses, [OtherError] for any other
    subclass of [Exception]. *)
Inductive exception : Type :=
  | APIError (msg : string)
  | AttributeError (msg : string)
  | IndexError (msg : string)
  | KeyError (msg : string)
  | OtherError (msg : string).

(** [str(e)], as interpolated by [f"... {e}"]. *)
Definition str_of (e : exception) : string :=
  match e with
  | APIError m | AttributeError m | IndexError m | KeyError m | OtherError m => m
  end.

End Py.

(** ** JSON values, as produced by [json.loads] *)

Unset Elimination Schemes.
Inductive json : Type :=
  | JNull
  | JBool (b : bool)
  | JNumber (literal : string)
  | JString (s : string)
  | JArray (items : list json)
  | JObject (members : list (string * json)).
Set Elimination Schemes.

(** ** Cells of a pandas frame: a string, or NaN where the record has no
    such field *)

Inductive cell : Type :=
  | Str (s : string)
  | NaN.

Definition cell_of (o : option string) : cell :=
  match o with
  | Some s => Str s
  | None => NaN
  end.

(** [Series.dropna().tolist()] *)
Definition dropna (col : list cell) : list string :=
  omap (fun c => match c with Str s => Some s | NaN => None end) col.

(** ** The remote services *)

(** The keyword arguments of [chat.completions.create]. *)
Record chat_request : Type := ChatRequest {
  model : string;
  system_content : string;
  user_content : cell;
  temperature : Q;
  max_tokens : nat
}.

(** What [chat.completions.create] does: it returns a response, of which
    the program reads [choices[i].message.content] (possibly [None]), or it
    raises. *)
Inductive create_outcome : Type :=
  | Response (choices : list (option string))
  | Raises (e : Py.exception).

(** An Airtable record: [{'id': ..., 'fields': {...}}]. *)
Record record : Type := Record_ {
  id : string;
  fields : gmap string string
}.

(** One call to a remote service, with what came back. *)
Inductive call : Type :=
  | OpenAICreate (req : chat_request) (out : create_outcome)
  | AirtableCreate (data : gmap string string) (out : Py.exception + record)
  | AirtableAll (out : Py.exception + list record).

Definition is_openai (c : call) : bool :=
  match c with OpenAICreate _ _ => true | _ => false end.

Definition is_airtable_create (c : call) : bool :=
  match c with AirtableCreate _ _ => true | _ => false end.

(** A call that left a new record in the store. *)
Definition persisted (c : call) : bool :=
  match c with AirtableCreate _ (inr _) => true | _ => false end.

(** The clients answer as a function of everything that went over the wire
    before, so that two identical requests may be answered differently. *)
Record OpenAI : Type := {
  chat_completions_create : list call -> chat_request -> create_outcome
}.

Record Table : Type := {
  create : list call -> gmap string string -> Py.exception + record;
  all_records : list call -> Py.exception + list record
}.

(** The module globals of [services.py] and the constants of [config.py]
    (which is not part of the sources at hand, hence taken as parameters).
    [openai_client] and [airtable_table] are [None] when the credentials
    are left at their placeholders.  [json_loads] is the standard library's
    [json.loads] on a [str]: a value, or [None] for [JSONDecodeError]. *)
Record Env : Type := {
  OPENAI_MODEL_NAME : string;
  ADMIN_PASSWORD : string;
  openai_client : option OpenAI;
  airtable_table : option Table;
  json_loads : string -> option json
}.

(** ** The screen *)

Inductive element : Type :=
  | Title (body : string)
  | Header (body : string)
  | Subheader (body : string)
  | Markdown (body : string)
  | Warning (body : string)
  | Error (body : string)
  | Success (body : string)
  | Toast (body : string)
  | Code (body : cell)
  | Text (body : string)
  | Json (body : json)
  | Dataframe (columns : list string) (rows : list (list cell))
  | DownloadButton (data : string) (file_name : string)
  | SidebarTitle (body : string).

(** ** The world of a script run *)

(** [st.session_state]: an absent key is [None]. *)
Record session : Type := Session {
  generated_prompt : option string;
  logged_in : option bool
}.

Record world : Type := World {
  session_state : session;
  screen : list element;
  wire : list call
}.

(** What the user supplies to one run of the script: the value every
    widget returns, and the clock. *)
Record widgets : Type := Widgets {
  page_selection : string;
  goal : string;
  context : string;
  output_format : string;
  tone : string;
  constraints : string;
  submit_button : bool;
  password : string;
  login_button : bool;
  selected_id : option string;
  analyze_button : bool;
  batch_button : bool;
  utcnow_isoformat : string
}.

(** ** The script monad

    A run either goes on with a value, or is cut short: by [st.stop()], by
    [st.rerun()], or by an exception nobody catches. *)

Inductive result (A : Type) : Type :=
  | Ret (a : A)
  | StopScript
  | RerunScript
  | Uncaught (e : Py.exception).

Arguments Ret {A} a.
Arguments StopScript {A}.
Arguments RerunScript {A}.
Arguments Uncaught {A} e.

Definition script (A : Type) : Type := world -> result A * world.

Definition ret {A} (a : A) : script A := fun w => (Ret a, w).

Definition bind {A B} (m : script A) (k : A -> script B) : script B :=
  fun w =>
    match m w with
    | (Ret a, w') => k a w'
    | (StopScript, w') => (StopScript, w')
    | (RerunScript, w') => (RerunScript, w')
    | (Uncaught e, w') => (Uncaught e, w')
    end.

Declare Scope script_scope.
Delimit Scope script_scope with script.
Notation "x <- m ;; k" := (bind m (fun x => k))
  (at level 100, m at next level, right associativity) : script_scope.
Notation "m ;; k" := (bind m (fun _ => k))
  (at level 100, right associativity) : script_scope.
Open Scope script_scope.

Module st.

Definition put (e : element) : script unit :=
  fun w => (Ret tt, World (session_state w) (screen w ++ [e]) (wire w)).

Definition title s := put (Title s).
Definition header s := put (Header s).
Definition subheader s := put (Subheader s).
Definition markdown s := put (Markdown s).
Definition warning s := put (Warning s).
Definition error s := put (Error s).
Definition success s := put (Success s).
Definition toast s := put (Toast s).
Definition code c := put (Code c).
Definition text s := put (Text s).
Definition json v := put (Json v).
Definition dataframe cols rows := put (Dataframe cols rows).
Definition download_button data name := put (DownloadButton data name).
Definition sidebar_title s := put (SidebarTitle s).

Definition stop {A} : script A := fun w => (StopScript, w).
Definition rerun {A} : script A := fun w => (RerunScript, w).

Definition get_session : script session := fun w => (Ret (session_state w), w).

Definition set_generated_prompt (p : string) : script unit :=
  fun w => (Ret tt,
            World (Session (Some p) (logged_in (session_state w))) (screen w) (wire w)).

Definition set_logged_in (b : bool) : script unit :=
  fun w => (Ret tt,
            World (Session (generated_prompt (session_state w)) (Some b)) (screen w) (wire w)).

End st.

Definition raise {A} (e : Py.exception) : script A := fun w => (Uncaught e, w).

(** Performs a remote call: asks the oracle, given the wire so far, and
    puts the call with its outcome on the wire. *)
Definition remote {O} (ask : list call -> O) (log : O -> call) : script O :=
  fun w =>
    let out := ask (wire w) in
    (Ret out, World (session_state w) (screen w) (wire w ++ [log out])).

(** ** services.py *)

Section Services.

Variable env : Env.

(** [response.choices[0].message.content.strip()], with the exceptions the
    indexing and the method call raise. *)
Definition first_content_stripped (choices : list (option string))
  : Py.exception + string :=
  match choices with
  | [] => inl (Py.IndexError "list index out of range")
  | None :: _ => inl (Py.AttributeError "'NoneType' object has no attribute 'strip'")
  | Some content :: _ => inr (Py.strip content)
  end.

Definition call_openai_api (system_prompt : string) (user_prompt : cell)
  : script (option string) :=
  match openai_client env with
  | None =>
      st.error "OpenAI client is not initialized. Cannot call API.";;
      ret None
  | Some client =>
      let req := ChatRequest (OPENAI_MODEL_NAME env) system_prompt user_prompt
                             (7 # 10) 1500 in
      out <- remote (fun h => chat_completions_create client h req) (OpenAICreate req);;
      match out with
      | Response choices =>
          match first_content_stripped choices with
          | inr content => ret (Some content)
          | inl e =>
              st.error ("An unexpected error occurred while calling OpenAI: " +:+ Py.str_of e);;
              ret None
          end
      | Raises (Py.APIError m) =>
          st.error ("An OpenAI API error occurred: " +:+ m);;
          ret None
      | Raises e =>
          st.error ("An unexpected error occurred while calling OpenAI: " +:+ Py.str_of e);;
          ret None
      end
  end.

Definition save_to_airtable (data : gmap string string) : script bool :=
  match airtable_table env with
  | None =>
      st.warning "Airtable is not configured. Data not saved.";;
      ret false
  | Some table =>
      out <- remote (fun h => create table h data) (AirtableCreate data);;
      match out with
      | inr _ =>
          st.toast "Prompt saved to Airtable!";;
          ret true
      | inl e =>
          st.error ("Failed to save data to Airtable: " +:+ Py.str_of e);;
          ret false
      end
  end.

Definition fetch_from_airtable : script (list record) :=
  match airtable_table env with
  | None =>
      st.warning "Airtable is not configured. Cannot fetch data.";;
      ret []
  | Some table =>
      out <- remote (all_records table) AirtableAll;;
      match out with
      | inr records => ret records
      | inl e =>
          st.error ("Failed to fetch data from Airtable: " +:+ Py.str_of e);;
          ret []
      end
  end.

End Services.

(** ** ui_components.py *)

Section Pages.

Variable env : Env.
Variable w_ : widgets.

Definition system_prompt_for_generation : string :=
  "You are an expert in prompt engineering. Your task is to synthesize user-provided components "
  +:+ "(goal, context, format, tone, constraints) into a single, comprehensive, and highly effective prompt. "
  +:+ "The final prompt should be clear, detailed, and ready to be used with a powerful AI model like GPT-5. "
  +:+ "Structure the prompt logically, often starting with the role, followed by the task, context, and clear instructions.".

(** The f-string of lines 73 to 79. *)
Definition user_input_summary (goal context output_format tone constraints : string)
  : string :=
  "**Goal:**" +:+ Py.LF +:+ goal +:+ Py.LF +:+ Py.LF
  +:+ "**Context:**" +:+ Py.LF +:+ context +:+ Py.LF +:+ Py.LF
  +:+ "**Desired Format:**" +:+ Py.LF +:+ output_format +:+ Py.LF +:+ Py.LF
  +:+ "**Tone of Voice:**" +:+ Py.LF +:+ tone +:+ Py.LF +:+ Py.LF
  +:+ "**Constraints:**" +:+ Py.LF +:+ constraints +:+ Py.LF.

(** The dict literal of lines 85 to 89. *)
Definition airtable_data (generated_prompt : string) : gmap string string :=
  <["Goal" := goal w_]>
  (<["Context" := context w_]>
  (<["Format" := output_format w_]>
  (<["Tone" := tone w_]>
  (<["Constraints" := constraints w_]>
  (<["GeneratedPrompt" := generated_prompt]>
  (<["Timestamp" := utcnow_isoformat w_]> ∅)))))).

(** The options offered by the tone select box. *)
Definition tone_options : list string :=
  ["Professional"; "Casual"; "Enthusiastic"; "Formal"; "Humorous"; "Neutral"; "Empathetic"].

(** Lines 23 to 59: the form.  Only the sub-headers reach the screen; the
    input widgets return what [w_] holds. *)
Definition prompt_form : script unit :=
  st.subheader "1. Define Your Goal";;
  st.subheader "2. Provide Context";;
  st.subheader "3. Specify the Format";;
  st.subheader "4. Set the Tone & Style";;
  st.subheader "5. Add Constraints".

(** Lines 92 to 106.  The disabled copy button shows nothing of the
    program's state and is left out. *)
Definition show_generated_prompt : script unit :=
  s <- st.get_session;;
  match generated_prompt s with
  | Some prompt_text =>
      st.success "✅ Prompt successfully generated!";;
      st.subheader "Your Engineered Prompt";;
      st.code (Str prompt_text);;
      st.download_button prompt_text "generated_prompt.txt"
  | None => ret tt
  end.

(** Lines 66 to 90. *)
Definition generate_and_save : script unit :=
  generated <- call_openai_api env system_prompt_for_generation
                 (Str (user_input_summary (goal w_) (context w_) (output_format w_)
                                          (tone w_) (constraints w_)));;
  match generated with
  | Some p =>
      if Py.truthy p then
        st.set_generated_prompt p;;
        save_to_airtable env (airtable_data p);;
        ret tt
      else ret tt
  | None => ret tt
  end.

Definition main_app_page : script unit :=
  st.title "🚀 AI Prompt Engineer";;
  st.markdown "Craft the perfect AI prompt by answering a few simple questions. Let AI help you build a better prompt!";;
  prompt_form;;
  if submit_button w_ && negb (Py.all [goal w_; context w_; output_format w_; tone w_]) then
    st.warning "Please fill out all the required fields to generate a high-quality prompt."
    (* return *)
  else
    (if submit_button w_ then generate_and_save else ret tt);;
    show_generated_prompt.

(** *** The admin panel *)

(** The frame built at lines 135 and 136 has one row per record; its
    columns are the field names that occur in some record, and
    [record_id]. *)
Definition has_field (col : string) (r : record) : bool :=
  bool_decide (is_Some (fields r !! col)).

Definition in_columns (records : list record) (col : string) : bool :=
  bool_decide (col = "record_id") || existsb (has_field col) records.

(** [row[col]] for a column of the frame. *)
Definition at_column (col : string) (r : record) : cell :=
  if bool_decide (col = "record_id") then Str (id r) else cell_of (fields r !! col).

(** [df[col]]: a [KeyError] when the frame has no such column. *)
Definition df_column (records : list record) (col : string)
  : Py.exception + list cell :=
  if in_columns records col then inr (map (at_column col) records)
  else inl (Py.KeyError col).

Definition display_columns : list string :=
  ["Timestamp"; "Goal"; "Context"; "GeneratedPrompt"; "record_id"].

(** [selected_record = df[df['record_id'] == selected_id].iloc[0]] followed
    by [selected_record['GeneratedPrompt']]. *)
Definition selected_prompt (records : list record) (selected : string)
  : Py.exception + cell :=
  match List.find (fun r => bool_decide (id r = selected)) records with
  | None => inl (Py.IndexError "single positional indexer is out-of-bounds")
  | Some r =>
      if in_columns records "GeneratedPrompt"
      then inr (at_column "GeneratedPrompt" r)
      else inl (Py.KeyError "GeneratedPrompt")
  end.

Definition lift {A} (x : Py.exception + A) : script A :=
  match x with
  | inr a => ret a
  | inl e => raise e
  end.

(** Lines 160 to 164. *)
Definition quality_analysis (prompt_to_analyze : cell) : script unit :=
  st.subheader "📊 Quality Analysis";;
  analysis <- call_openai_api env "You are a prompt quality analysis expert..." prompt_to_analyze;;
  st.markdown (Py.or_else analysis "Could not generate analysis.").

(** Lines 166 to 173: [json.loads(None)] raises [TypeError],
    [json.loads] of a [str] that is not JSON raises [JSONDecodeError]; both
    are caught. *)
Definition metadata_extraction (prompt_to_analyze : cell) : script unit :=
  st.subheader "🔖 Extracted Metadata";;
  metadata_analysis <- call_openai_api env
      "You are a metadata extraction AI... Return the output as a clean JSON object."
      prompt_to_analyze;;
  match metadata_analysis ≫= json_loads env with
  | Some v => st.json v
  | None => st.text (Py.or_else metadata_analysis "Could not extract metadata.")
  end.

(** Lines 175 to 179. *)
Definition summary_analysis (prompt_to_analyze : cell) : script unit :=
  st.subheader "👍 Strengths & Weaknesses 👎";;
  summary <- call_openai_api env "You are a strategic analyst... Provide a concise summary..." prompt_to_analyze;;
  st.markdown (Py.or_else summary "Could not generate summary.").

Definition batch_separator : string :=
  Py.LF +:+ Py.LF +:+ "---" +:+ Py.LF +:+ Py.LF.

(** Lines 184 to 189: the body of the batch button. *)
Definition batch_analysis (records : list record) : script unit :=
  column <- lift (df_column records "GeneratedPrompt");;
  let all_prompts := Py.join batch_separator (dropna column) in
  analysis <- call_openai_api env "You are a data analyst specializing in AI prompt trends..."
                (Str all_prompts);;
  st.subheader "Trend Analysis Report";;
  st.markdown (Py.or_else analysis "Could not generate batch analysis.").

(** Lines 115 to 126: the gate.  An absent flag is first set to [False]. *)
Definition login_gate : script unit :=
  s <- st.get_session;;
  match logged_in s with
  | None => st.set_logged_in false
  | Some _ => ret tt
  end;;
  s <- st.get_session;;
  if negb (default false (logged_in s)) then
    (if login_button w_ then
       if bool_decide (password w_ = ADMIN_PASSWORD env) then
         st.set_logged_in true;;
         st.rerun
       else st.error "Incorrect password."
     else ret tt);;
    st.stop
  else ret tt.

(** Lines 135 to 142: the frame and the table of submissions. *)
Definition submissions_table (records : list record) : script unit :=
  let shown := List.filter (in_columns records) display_columns in
  st.subheader "📋 All Prompt Submissions";;
  st.dataframe shown (map (fun r => map (fun col => at_column col r) shown) records).

(** Lines 144 to 179. *)
Definition single_prompt_analysis (records : list record) : script unit :=
  st.header "🔬 Analyze a Single Prompt";;
  match selected_id w_ with
  | Some selected =>
      if Py.truthy selected then
        prompt_to_analyze <- lift (selected_prompt records selected);;
        st.markdown "#### Selected Prompt:";;
        st.code prompt_to_analyze;;
        if analyze_button w_ then
          quality_analysis prompt_to_analyze;;
          metadata_extraction prompt_to_analyze;;
          summary_analysis prompt_to_analyze
        else ret tt
      else ret tt
  | None => ret tt
  end.

(** Lines 181 to 189. *)
Definition batch_trend_analysis (records : list record) : script unit :=
  st.header "📈 Batch Trend Analysis";;
  st.markdown "Analyze all stored prompts to identify patterns and insights.";;
  if batch_button w_ then batch_analysis records else ret tt.

(** Lines 130 to 189: the stored submissions and their analyses. *)
Definition stored_submissions : script unit :=
  records <- fetch_from_airtable env;;
  match records with
  | [] =>
      st.warning "No records found in Airtable or service is not configured.";;
      st.stop
  | _ :: _ =>
      submissions_table records;;
      single_prompt_analysis records;;
      batch_trend_analysis records
  end.

(** Lines 128 to 189: what lies behind the gate. *)
Definition admin_views : script unit :=
  st.success "Logged in successfully.";;
  stored_submissions.

Definition admin_page : script unit :=
  st.title "🔐 Admin Panel";;
  st.markdown "View user submissions and analyze prompt quality.";;
  login_gate;;
  admin_views.

(** ** app.py

    The page configuration and the style sheet are presentation only; the
    script is [main]. *)

Definition main : script unit :=
  st.sidebar_title "Navigation";;
  if bool_decide (page_selection w_ = "Prompt Generator") then main_app_page
  else if bool_decide (page_selection w_ = "Admin Panel") then admin_page
  else raise (Py.KeyError (page_selection w_)).

End Pages.

(** ** Sessions

    Streamlit runs the script once per user action.  The session state and
    the remote services live on from run to run; the page is drawn
    afresh. *)

Definition fresh_page (w : world) : world :=
  World (session_state w) [] (wire w).

(** Runs the script once per entry of [actions], and keeps, for every run,
    how it ended and the world it left. *)
Fixpoint session_runs (env : Env) (actions : list widgets) (w : world)
  : list (widgets * (result unit * world)) :=
  match actions with
  | [] => []
  | w_ :: rest =>
      let r := main env w_ (fresh_page w) in
      (w_, r) :: session_runs env rest r.2
  end.

(** ** Test doubles used by the examples *)

Module Double.

(** A backend that answers every request with [content]. *)
Definition answering (content : string) : OpenAI :=
  {| chat_completions_create := fun _ _ => Response [Some content] |}.

(** A store that keeps nothing and names every new record [rec_id]. *)
Definition table_naming (rec_id : string) : Table :=
  {| create := fun _ data => inr (Record_ rec_id data);
     all_records := fun _ => inr [] |}.

(** A store that holds [records] and refuses every write. *)
Definition table_holding (records : list record) : Table :=
  {| create := fun _ _ => inl (Py.OtherError "503 Service Unavailable");
     all_records := fun _ => inr records |}.

(** A parser that knows the empty object only. *)
Definition loads_empty_object (s : string) : option json :=
  if bool_decide (s = "{}") then Some (JObject []) else None.

Definition env_with (client : option OpenAI) (table : option Table) : Env :=
  {| OPENAI_MODEL_NAME := "gpt-5";
     ADMIN_PASSWORD := "s3cret";
     openai_client := client;
     airtable_table := table;
     json_loads := loads_empty_object |}.

Definition blank : world := World (Session None None) [] [].

Definition admin_session : world := World (Session None (Some true)) [] [].

(** The form of the haiku example, submitted. *)
Definition haiku : widgets :=
  {| page_selection := "Prompt Generator";
     goal := "Write a haiku"; context := "about autumn";
     output_format := "3 lines"; tone := "Casual"; constraints := "";
     submit_button := true;
     password := ""; login_button := false; selected_id := None;
     analyze_button := false; batch_button := false;
     utcnow_isoformat := "2025-01-01T12:00:00" |}.

Definition with_goal (g : string) (w_ : widgets) : widgets :=
  Widgets (page_selection w_) g (context w_) (output_format w_) (tone w_)
          (constraints w_) (submit_button w_) (password w_) (login_button w_)
          (selected_id w_) (analyze_button w_) (batch_button w_) (utcnow_isoformat w_).

(** The admin panel, with [pw] typed and the buttons as given. *)
Definition admin (pw : string) (login analyze batch : bool) (sel : option string)
  : widgets :=
  {| page_selection := "Admin Panel";
     goal := ""; context := ""; output_format := ""; tone := "Professional";
     constraints := ""; submit_button := false;
     password := pw; login_button := login; selected_id := sel;
     analyze_button := analyze; batch_button := batch;
     utcnow_isoformat := "2025-01-01T12:00:00" |}.

End Double.

(** ** Notions used to state the properties *)

(** [R] relates the world before a script to the world after it. *)
Definition respects (R : world -> world -> Prop) {A} (m : script A) : Prop :=
  forall w, R w (m w).2.

(** Once logged in, still logged in. *)
Definition stays_logged_in (w w' : world) : Prop :=
  logged_in (session_state w) = Some true ->
  logged_in (session_state w') = Some true.

(** The wire only grows, and by calls that satisfy [P]. *)
Definition emits (P : call -> Prop) (w w' : world) : Prop :=
  exists new, wire w' = wire w ++ new /\ Forall P new.

(** A script that always returns, keeps the session state, and puts only
    backend calls on the wire. *)
Definition completes {A} (m : script A) : Prop :=
  forall w, exists a w' new,
    m w = (Ret a, w')
    /\ session_state w' = session_state w
    /\ wire w' = wire w ++ new
    /\ Forall (fun c => is_openai c = true) new.

(** The screen only grows. *)
Definition screen_grows (w w' : world) : Prop :=
  exists more, screen w' = screen w ++ more.

(** What the gate leaves of the session when it stays shut, and when it
    opens. *)
Definition locked (s : session) : session :=
  Session (generated_prompt s) (Some false).

Definition unlocked (s : session) : session :=
  Session (generated_prompt s) (Some true).

(** What [call_openai_api] returns for an outcome of the remote call, and
    the message it shows. *)
Definition reply_text (out : create_outcome) : option string :=
  match out with
  | Response (Some content :: _) => Some (Py.strip content)
  | _ => None
  end.

Definition reply_notice (out : create_outcome) : list element :=
  match out with
  | Response (Some _ :: _) => []
  | Response [] =>
      [Error "An unexpected error occurred while calling OpenAI: list index out of range"]
  | Response (None :: _) =>
      [Error "An unexpected error occurred while calling OpenAI: 'NoneType' object has no attribute 'strip'"]
  | Raises (Py.APIError m) => [Error ("An OpenAI API error occurred: " +:+ m)]
  | Raises e =>
      [Error ("An unexpected error occurred while calling OpenAI: " +:+ Py.str_of e)]
  end.

(** The request [call_openai_api] sends. *)
Definition request_of (env : Env) (system_prompt : string) (user_prompt : cell)
  : chat_request :=
  ChatRequest (OPENAI_MODEL_NAME env) system_prompt user_prompt (7 # 10) 1500.

(** What [save_to_airtable] shows for an outcome of the remote call. *)
Definition save_notice (out : Py.exception + record) : element :=
  match out with
  | inr _ => Toast "Prompt saved to Airtable!"
  | inl e => Error ("Failed to save data to Airtable: " +:+ Py.str_of e)
  end.

Definition saved (out : Py.exception + record) : bool :=
  match out with inr _ => true | inl _ => false end.

(** What [fetch_from_airtable] returns and shows for an outcome of the
    remote call. *)
Definition fetched (out : Py.exception + list record) : list record :=
  match out with inr records => records | inl _ => [] end.

Definition fetch_notice (out : Py.exception + list record) : list element :=
  match out with
  | inr _ => []
  | inl e => [Error ("Failed to fetch data from Airtable: " +:+ Py.str_of e)]
  end.

(** The calls [save_to_airtable] puts on a wire that holds [before]. *)
Definition store_calls (env : Env) (data : gmap string string) (before : list call)
  : list call :=
  match airtable_table env with
  | None => []
  | Some table => [AirtableCreate data (create table before data)]
  end.

(** The head of the prompt generator page. *)
Definition form_elements : list element :=
  [ Title "🚀 AI Prompt Engineer";
    Markdown "Craft the perfect AI prompt by answering a few simple questions. Let AI help you build a better prompt!";
    Subheader "1. Define Your Goal"; Subheader "2. Provide Context";
    Subheader "3. Specify the Format"; Subheader "4. Set the Tone & Style";
    Subheader "5. Add Constraints" ].

(** The display of a generated prompt. *)
Definition prompt_elements (p : string) : list element :=
  [ Success "✅ Prompt successfully generated!";
    Subheader "Your Engineered Prompt";
    Code (Str p);
    DownloadButton p "generated_prompt.txt" ].

(** The head of the admin page. *)
Definition admin_head : list element :=
  [ Title "🔐 Admin Panel";
    Markdown "View user submissions and analyze prompt quality." ].

(** ** services.py, lines 16 to 38: the two clients

    The settings come from [config.py]; each may be [None].  The
    constructors of the two libraries are taken as given: they build a
    client or raise. *)

Record config : Type := Config {
  OPENAI_API_KEY : option string;
  AIRTABLE_API_KEY : option string;
  AIRTABLE_BASE_ID : option string;
  AIRTABLE_TABLE_NAME : option string
}.

Record sdk : Type := Sdk {
  (* openai.OpenAI(api_key=key) *)
  new_openai : string -> Py.exception + OpenAI;
  (* Api(key).table(base, name) *)
  new_table : option string -> option string -> option string -> Py.exception + Table
}.

(** [bool(x)] for a setting: [None] and the empty string are false. *)
Definition setting_truthy (x : option string) : bool :=
  match x with
  | Some s => Py.truthy s
  | None => false
  end.

(** [x != "literal"] for a setting. *)
Definition differs (x : option string) (literal : string) : bool :=
  negb (bool_decide (x = Some literal)).

(** The [except Exception] handler of lines 36 to 38. *)
Definition init_failed {A} (e : Py.exception) : script A :=
  st.error ("Failed to initialize API clients. Please check your credentials. Error: "
            +:+ Py.str_of e);;
  st.stop.

Definition init_clients (cfg : config) (lib : sdk)
  : script (option OpenAI * option Table) :=
  client <-
    (match OPENAI_API_KEY cfg with
     | Some key =>
         if Py.truthy key && differs (Some key) "YOUR_OPENAI_API_KEY_HERE" then
           match new_openai lib key with
           | inr c => ret (Some c)
           | inl e => init_failed e
           end
         else
           st.warning "OpenAI API Key not configured. AI features will be disabled.";;
           ret None
     | None =>
         st.warning "OpenAI API Key not configured. AI features will be disabled.";;
         ret None
     end);;
  table <-
    (if forallb (fun b : bool => b)
          [ differs (AIRTABLE_API_KEY cfg) "YOUR_AIRTABLE_API_KEY_HERE";
            differs (AIRTABLE_BASE_ID cfg) "YOUR_AIRTABLE_BASE_ID_HERE";
            differs (AIRTABLE_TABLE_NAME cfg) "YOUR_AIRTABLE_TABLE_NAME_HERE" ]
     then
       match new_table lib (AIRTABLE_API_KEY cfg) (AIRTABLE_BASE_ID cfg)
                       (AIRTABLE_TABLE_NAME cfg) with
       | inr t => ret (Some t)
       | inl e => init_failed e
       end
     else
       st.warning "Airtable credentials not fully configured. Data storage will be disabled.";;
       ret None);;
  ret (client, table).

(** The environment the pages run in once the clients are made. *)
Definition env_of_clients (model_name admin_password : string)
    (loads : string -> option json) (clients : option OpenAI * option Table) : Env :=
  {| OPENAI_MODEL_NAME := model_name;
     ADMIN_PASSWORD := admin_password;
     openai_client := clients.1;
     airtable_table := clients.2;
     json_loads := loads |}.

(** ** Further notions used to state properties *)

(** The prompt kept in the session state is never the empty string. *)
Definition prompt_ok (s : session) : Prop :=
  forall p, generated_prompt s = Some p -> p <> "".

(** The prompt of the session is the one before, or a new one that is not
    empty. *)
Definition prompt_kept_or_new (w w' : world) : Prop :=
  generated_prompt (session_state w') = generated_prompt (session_state w)
  \/ exists p, generated_prompt (session_state w') = Some p /\ p <> "".

(** The prompt of the session is untouched. *)
Definition same_prompt (w w' : world) : Prop :=
  generated_prompt (session_state w') = generated_prompt (session_state w).

(** The flag of the session is untouched. *)
Definition same_flag (w w' : world) : Prop :=
  logged_in (session_state w') = logged_in (session_state w).

Definition is_airtable (c : call) : bool :=
  match c with OpenAICreate _ _ => false | _ => true end.

(** The three requests of the single prompt analysis. *)
Definition quality_request (env : Env) (p : cell) : chat_request :=
  request_of env "You are a prompt quality analysis expert..." p.

Definition metadata_request (env : Env) (p : cell) : chat_request :=
  request_of env "You are a metadata extraction AI... Return the output as a clean JSON object." p.

Definition summary_request (env : Env) (p : cell) : chat_request :=
  request_of env "You are a strategic analyst... Provide a concise summary..." p.

(** What the metadata extraction shows for the text the call returned. *)
Definition metadata_element (env : Env) (reply : option string) : element :=
  match reply ≫= json_loads env with
  | Some v => Json v
  | None => Text (Py.or_else reply "Could not extract metadata.")
  end.

(** Further test doubles. *)
Module Fixture.

Definition lib_ok : sdk :=
  {| new_openai := fun _ => inr (Double.answering "Be a poet.");
     new_table := fun _ _ _ => inr (Double.table_naming "rec1") |}.

Definition lib_refusing_table : sdk :=
  {| new_openai := fun _ => inr (Double.answering "Be a poet.");
     new_table := fun _ _ _ => inl (Py.OtherError "Invalid base") |}.

(** A backend that raises on every request. *)
Definition failing : OpenAI :=
  {| chat_completions_create := fun _ _ => Raises (Py.APIError "rate limit") |}.

(** A store whose listing raises. *)
Definition table_down : Table :=
  {| create := fun _ _ => inl (Py.OtherError "503 Service Unavailable");
     all_records := fun _ => inl (Py.OtherError "503 Service Unavailable") |}.

Definition poet_records : list record :=
  [ Record_ "recA" {["GeneratedPrompt" := "Be a poet."]};
    Record_ "recB" {["Goal" := "Sing"]};
    Record_ "recA" {["GeneratedPrompt" := "Be a bard."]} ].

Definition with_prompt (p : string) : world :=
  World (Session (Some p) None) [] [].

End Fixture.

(** * Properties *)

(** ** What a script leaves unchanged

    When [R] is a preorder, a script respects it as soon as its parts
    do. *)

Section Respects.

Variable R : world -> world -> Prop.
Hypothesis R_refl : forall w, R w w.
Hypothesis R_trans : forall a b c, R a b -> R b c -> R a c.

Lemma respects_ret {A} (a : A) : respects R (ret a).
Proof. intros w. apply R_refl. Qed.

Lemma respects_stop {A} : respects R (@st.stop A).
Proof. intros w. apply R_refl. Qed.

Lemma respects_rerun {A} : respects R (@st.rerun A).
Proof. intros w. apply R_refl. Qed.

Lemma respects_raise {A} e : respects R (@raise A e).
Proof. intros w. apply R_refl. Qed.

Lemma respects_get_session : respects R st.get_session.
Proof. intros w. apply R_refl. Qed.

Lemma respects_lift {A} (x : Py.exception + A) : respects R (lift x).
Proof. destruct x; [apply respects_raise | apply respects_ret]. Qed.

Lemma respects_bind {A B} (m : script A) (k : A -> script B) :
  respects R m -> (forall a, respects R (k a)) -> respects R (bind m k).
Proof.
  intros Hm Hk w. unfold bind. specialize (Hm w).
  destruct (m w) as [[a| | |e] w']; simpl in *; try assumption.
  eapply R_trans; [exact Hm | apply Hk].
Qed.

End Respects.

(** ** services.py *)

Lemma call_openai_api_unconfigured env system_prompt user_prompt w :
  openai_client env = None ->
  call_openai_api env system_prompt user_prompt w
  = (Ret None,
     World (session_state w)
           (screen w ++ [Error "OpenAI client is not initialized. Cannot call API."])
           (wire w)).
Proof. intros H. unfold call_openai_api. rewrite H. reflexivity. Qed.

Lemma call_openai_api_configured env client system_prompt user_prompt w :
  openai_client env = Some client ->
  let req := request_of env system_prompt user_prompt in
  let out := chat_completions_create client (wire w) req in
  call_openai_api env system_prompt user_prompt w
  = (Ret (reply_text out),
     World (session_state w) (screen w ++ reply_notice out)
           (wire w ++ [OpenAICreate req out])).
Proof.
  intros H. unfold call_openai_api, request_of. rewrite H.
  unfold bind, remote. simpl.
  destruct (chat_completions_create client (wire w) _) as [[|[content|] more]|[]];
    simpl; rewrite ?app_nil_r; reflexivity.
Qed.

(** C5: [call_openai_api] never lets a fault escape.  Without a client it
    shows a message and returns [None] with nothing put on the wire; with a
    client it puts exactly one call on the wire (no second attempt) and,
    when that call raises or carries no text, shows one error message and
    returns [None]. *)
Theorem call_openai_api_failures env system_prompt user_prompt w :
  match openai_client env with
  | None =>
      call_openai_api env system_prompt user_prompt w
      = (Ret None,
         World (session_state w)
               (screen w ++ [Error "OpenAI client is not initialized. Cannot call API."])
               (wire w))
  | Some client =>
      let req := ChatRequest (OPENAI_MODEL_NAME env) system_prompt user_prompt (7 # 10) 1500 in
      let out := chat_completions_create client (wire w) req in
      exists r notices,
        call_openai_api env system_prompt user_prompt w
        = (Ret r,
           World (session_state w) (screen w ++ notices)
                 (wire w ++ [OpenAICreate req out]))
        /\ match out with
           | Response (Some content :: _) => r = Some (Py.strip content) /\ notices = []
           | _ => r = None /\ exists msg, notices = [Error msg]
           end
  end.
Proof.
  destruct (openai_client env) as [client|] eqn:Hc.
  - intros req out. exists (reply_text out), (reply_notice out). split.
    + apply (call_openai_api_configured env client); exact Hc.
    + destruct out as [[|[content|] more]|[]]; simpl; eauto.
  - apply call_openai_api_unconfigured; exact Hc.
Qed.

Lemma save_to_airtable_unconfigured env data w :
  airtable_table env = None ->
  save_to_airtable env data w
  = (Ret false,
     World (session_state w)
           (screen w ++ [Warning "Airtable is not configured. Data not saved."])
           (wire w)).
Proof. intros H. unfold save_to_airtable. rewrite H. reflexivity. Qed.

Lemma save_to_airtable_configured env table data w :
  airtable_table env = Some table ->
  let out := create table (wire w) data in
  save_to_airtable env data w
  = (Ret (saved out),
     World (session_state w) (screen w ++ [save_notice out])
           (wire w ++ [AirtableCreate data out])).
Proof.
  intros H. unfold save_to_airtable. rewrite H. unfold bind, remote. simpl.
  destruct (create table (wire w) data); reflexivity.
Qed.

Lemma fetch_from_airtable_unconfigured env w :
  airtable_table env = None ->
  fetch_from_airtable env w
  = (Ret [],
     World (session_state w)
           (screen w ++ [Warning "Airtable is not configured. Cannot fetch data."])
           (wire w)).
Proof. intros H. unfold fetch_from_airtable. rewrite H. reflexivity. Qed.

Lemma fetch_from_airtable_configured env table w :
  airtable_table env = Some table ->
  let out := all_records table (wire w) in
  fetch_from_airtable env w
  = (Ret (fetched out),
     World (session_state w) (screen w ++ fetch_notice out)
           (wire w ++ [AirtableAll out])).
Proof.
  intros H. unfold fetch_from_airtable. rewrite H. unfold bind, remote. simpl.
  destruct (all_records table (wire w)); simpl; rewrite ?app_nil_r; reflexivity.
Qed.

(** [save_to_airtable] and [fetch_from_airtable] always return. *)
Lemma save_to_airtable_returns env data w :
  exists b w', save_to_airtable env data w = (Ret b, w')
               /\ session_state w' = session_state w.
Proof.
  destruct (airtable_table env) as [table|] eqn:H.
  - rewrite (save_to_airtable_configured env table) by exact H. eauto.
  - rewrite save_to_airtable_unconfigured by exact H. eauto.
Qed.

Lemma fetch_from_airtable_returns env w :
  exists records w', fetch_from_airtable env w = (Ret records, w')
                     /\ session_state w' = session_state w.
Proof.
  destruct (airtable_table env) as [table|] eqn:H.
  - rewrite (fetch_from_airtable_configured env table) by exact H. eauto.
  - rewrite fetch_from_airtable_unconfigured by exact H. eauto.
Qed.

(** ** Running a script step by step *)

Lemma bind_ret {A B} (m : script A) (k : A -> script B) w a w' :
  m w = (Ret a, w') -> bind m k w = k a w'.
Proof. intros H. unfold bind. rewrite H. reflexivity. Qed.

Lemma world_eta w : World (session_state w) (screen w) (wire w) = w.
Proof. destruct w; reflexivity. Qed.

(** Unfolds the Streamlit primitives and flattens the screen. *)
Ltac run :=
  cbv [bind ret raise lift st.put st.title st.header st.subheader st.markdown
       st.warning st.error st.success st.toast st.code st.text st.json
       st.dataframe st.download_button st.sidebar_title st.stop st.rerun
       st.get_session st.set_generated_prompt st.set_logged_in];
  cbn [fst snd session_state screen wire generated_prompt logged_in];
  rewrite <- ?app_assoc; cbn [app].

(** ** Python strings *)

Example strip_blanks : Py.strip ("  Be a poet. " +:+ Py.LF) = "Be a poet.".
Proof. reflexivity. Qed.

Example strip_no_break_space :
  Py.strip (Py.bytes [194; 160] +:+ "a b" +:+ Py.bytes [226; 128; 137]) = "a b".
Proof. reflexivity. Qed.

Example strip_only_blanks : Py.strip ("   " +:+ Py.LF) = "".
Proof. reflexivity. Qed.

(** ** The prompt generator page *)

(** Every tone the select box offers passes the validation. *)
Lemma tone_options_truthy : Forall (fun t => Py.truthy t = true) tone_options.
Proof. repeat constructor. Qed.

Lemma form_run {B} (k : script B) w :
  (st.title "🚀 AI Prompt Engineer";;
   st.markdown "Craft the perfect AI prompt by answering a few simple questions. Let AI help you build a better prompt!";;
   prompt_form;;
   k) w
  = k (World (session_state w) (screen w ++ form_elements) (wire w)).
Proof.
  unfold prompt_form. run. reflexivity.
Qed.

Lemma show_generated_prompt_run w :
  show_generated_prompt w
  = (Ret tt,
     World (session_state w)
           (screen w ++ from_option prompt_elements [] (generated_prompt (session_state w)))
           (wire w)).
Proof.
  unfold show_generated_prompt. run.
  destruct (generated_prompt (session_state w)); run; simpl.
  - reflexivity.
  - rewrite app_nil_r, world_eta. reflexivity.
Qed.

Lemma truthy_true s : Py.truthy s = true <-> s <> "".
Proof. destruct s; simpl; split; congruence. Qed.

Lemma all_required_true (g c f t : string) :
  g <> "" -> c <> "" -> f <> "" -> t <> "" -> Py.all [g; c; f; t] = true.
Proof.
  intros Hg Hc Hf Ht. unfold Py.all. simpl.
  rewrite !(proj2 (truthy_true _)) by assumption. reflexivity.
Qed.

Lemma all_required_false (g c f t : string) :
  g = "" \/ c = "" \/ f = "" \/ t = "" -> Py.all [g; c; f; t] = false.
Proof.
  unfold Py.all. simpl.
  intros [-> | [-> | [-> | ->]]]; simpl; rewrite ?andb_false_r; reflexivity.
Qed.

(** Lines 66 to 90 when a client is configured: one call to the backend,
    then the save if the answer is a prompt. *)
Lemma generate_and_save_run env w_ w client :
  openai_client env = Some client ->
  let req := request_of env system_prompt_for_generation
               (Str (user_input_summary (goal w_) (context w_) (output_format w_)
                                        (tone w_) (constraints w_))) in
  let out := chat_completions_create client (wire w) req in
  let called s := World s (screen w ++ reply_notice out) (wire w ++ [OpenAICreate req out]) in
  generate_and_save env w_ w
  = match reply_text out with
    | Some p =>
        if Py.truthy p then
          (Ret tt,
           (save_to_airtable env (airtable_data w_ p)
              (called (Session (Some p) (logged_in (session_state w))))).2)
        else (Ret tt, called (session_state w))
    | None => (Ret tt, called (session_state w))
    end.
Proof.
  intros Hc req out called. unfold generate_and_save.
  erewrite bind_ret by (apply (call_openai_api_configured env client); exact Hc).
  fold req. fold out.
  destruct (reply_text out) as [p|]; [|reflexivity].
  destruct (Py.truthy p); [|reflexivity].
  run. fold (called (Session (Some p) (logged_in (session_state w)))).
  destruct (save_to_airtable_returns env (airtable_data w_ p)
              (called (Session (Some p) (logged_in (session_state w)))))
    as (b & w' & -> & _).
  reflexivity.
Qed.

Lemma generate_and_save_unconfigured env w_ w :
  openai_client env = None ->
  generate_and_save env w_ w
  = (Ret tt,
     World (session_state w)
           (screen w ++ [Error "OpenAI client is not initialized. Cannot call API."])
           (wire w)).
Proof.
  intros Hc. unfold generate_and_save.
  erewrite bind_ret by (apply call_openai_api_unconfigured; exact Hc).
  reflexivity.
Qed.

(** The page, when the form is submitted with every required field
    filled. *)
Lemma main_app_page_submitted env w_ w :
  submit_button w_ = true ->
  Py.all [goal w_; context w_; output_format w_; tone w_] = true ->
  main_app_page env w_ w
  = bind (generate_and_save env w_) (fun _ => show_generated_prompt)
         (World (session_state w) (screen w ++ form_elements) (wire w)).
Proof.
  intros Hs Ha. unfold main_app_page.
  rewrite form_run, Hs, Ha. reflexivity.
Qed.

(** C1, as amended: when the form is submitted and one of goal, context,
    format, tone is the empty string (nothing is trimmed), the page shows
    one fixed warning, the same whichever field is missing, and returns
    with the session state and the wire untouched: no call to the backend,
    none to the store. *)
Theorem main_app_page_validation env w_ w :
  submit_button w_ = true ->
  goal w_ = "" \/ context w_ = "" \/ output_format w_ = "" \/ tone w_ = "" ->
  main_app_page env w_ w
  = (Ret tt,
     World (session_state w)
           (screen w ++ form_elements
            ++ [Warning "Please fill out all the required fields to generate a high-quality prompt."])
           (wire w)).
Proof.
  intros Hs He. unfold main_app_page.
  rewrite form_run, Hs, (all_required_false _ _ _ _ He).
  cbn [andb negb]. run. reflexivity.
Qed.

Lemma save_to_airtable_wire env data w :
  wire (save_to_airtable env data w).2 = wire w ++ store_calls env data (wire w).
Proof.
  unfold store_calls. destruct (airtable_table env) as [table|] eqn:H.
  - rewrite (save_to_airtable_configured env table) by exact H. reflexivity.
  - rewrite save_to_airtable_unconfigured by exact H. simpl.
    rewrite app_nil_r. reflexivity.
Qed.

(** What a submitted, complete form puts on the wire. *)
Lemma main_app_page_wire env w_ w client :
  openai_client env = Some client ->
  submit_button w_ = true ->
  Py.all [goal w_; context w_; output_format w_; tone w_] = true ->
  let req := request_of env system_prompt_for_generation
               (Str (user_input_summary (goal w_) (context w_) (output_format w_)
                                        (tone w_) (constraints w_))) in
  let out := chat_completions_create client (wire w) req in
  (main_app_page env w_ w).1 = Ret tt
  /\ wire (main_app_page env w_ w).2
     = wire w ++ OpenAICreate req out ::
         match reply_text out with
         | Some p =>
             if Py.truthy p
             then store_calls env (airtable_data w_ p) (wire w ++ [OpenAICreate req out])
             else []
         | None => []
         end.
Proof.
  intros Hc Hs Ha req out.
  rewrite main_app_page_submitted by assumption.
  unfold bind. rewrite (generate_and_save_run env w_ _ client) by exact Hc.
  cbn [wire screen session_state]. fold req. fold out.
  destruct (reply_text out) as [p|]; [destruct (Py.truthy p)|];
    rewrite show_generated_prompt_run; cbn [fst snd wire];
    rewrite ?save_to_airtable_wire; cbn [wire];
    rewrite <- ?app_assoc; auto.
Qed.

(** C1, the claim as stated fails: a goal of three blanks is empty once
    trimmed, yet the form passes validation and the backend is called. *)
Lemma blank_goal_reaches_backend :
  let env := Double.env_with (Some (Double.answering "Be a poet.")) None in
  let w_ := Double.with_goal "   " Double.haiku in
  Py.strip (goal w_) = ""
  /\ wire (main_app_page env w_ Double.blank).2
     = [OpenAICreate
          (request_of env system_prompt_for_generation
             (Str (user_input_summary "   " "about autumn" "3 lines" "Casual" "")))
          (Response [Some "Be a poet."])].
Proof. split; vm_compute; reflexivity. Qed.

Lemma main_app_page_validation_witness :
  let env := Double.env_with (Some (Double.answering "Be a poet.")) (Some (Double.table_naming "rec1")) in
  main_app_page env (Double.with_goal "" Double.haiku) Double.blank
  = (Ret tt,
     World (Session None None)
           (form_elements
            ++ [Warning "Please fill out all the required fields to generate a high-quality prompt."])
           []).
Proof.
  intros env.
  exact (main_app_page_validation env (Double.with_goal "" Double.haiku) Double.blank
           eq_refl (or_introl eq_refl)).
Defined.

(** C2: when a complete form is submitted and a backend is configured, the
    user payload of the request put on the wire is the five fields under
    the headings Goal, Context, Desired Format, Tone of Voice, Constraints,
    in this order, the last section present whatever the constraints are.
    It depends on the five fields alone, not on the session, the history of
    the wire or the environment; it is the only request the page sends to
    the backend. *)
Theorem user_payload_deterministic env w_ w client :
  openai_client env = Some client ->
  submit_button w_ = true ->
  goal w_ <> "" -> context w_ <> "" -> output_format w_ <> "" -> tone w_ <> "" ->
  exists out rest,
    wire (main_app_page env w_ w).2
    = wire w
      ++ OpenAICreate
           (ChatRequest (OPENAI_MODEL_NAME env) system_prompt_for_generation
              (Str ("**Goal:**" +:+ Py.LF +:+ goal w_ +:+ Py.LF +:+ Py.LF
                    +:+ "**Context:**" +:+ Py.LF +:+ context w_ +:+ Py.LF +:+ Py.LF
                    +:+ "**Desired Format:**" +:+ Py.LF +:+ output_format w_ +:+ Py.LF +:+ Py.LF
                    +:+ "**Tone of Voice:**" +:+ Py.LF +:+ tone w_ +:+ Py.LF +:+ Py.LF
                    +:+ "**Constraints:**" +:+ Py.LF +:+ constraints w_ +:+ Py.LF))
              (7 # 10) 1500)
           out
         :: rest
    /\ Forall (fun c => is_openai c = false) rest.
Proof.
  intros Hc Hs Hg Hx Hf Ht.
  destruct (main_app_page_wire env w_ w client Hc Hs
              (all_required_true _ _ _ _ Hg Hx Hf Ht)) as [_ Hw].
  eexists _, _. split; [exact Hw|].
  destruct (reply_text _) as [p|]; [destruct (Py.truthy p)|]; try constructor.
  unfold store_calls. destruct (airtable_table env); repeat constructor.
Qed.

Lemma user_payload_deterministic_witness :
  let env := Double.env_with (Some (Double.answering "Be a poet.")) (Some (Double.table_naming "rec1")) in
  exists out rest,
    wire (main_app_page env Double.haiku Double.blank).2
    = OpenAICreate
        (ChatRequest "gpt-5" system_prompt_for_generation
           (Str ("**Goal:**" +:+ Py.LF +:+ "Write a haiku" +:+ Py.LF +:+ Py.LF
                 +:+ "**Context:**" +:+ Py.LF +:+ "about autumn" +:+ Py.LF +:+ Py.LF
                 +:+ "**Desired Format:**" +:+ Py.LF +:+ "3 lines" +:+ Py.LF +:+ Py.LF
                 +:+ "**Tone of Voice:**" +:+ Py.LF +:+ "Casual" +:+ Py.LF +:+ Py.LF
                 +:+ "**Constraints:**" +:+ Py.LF +:+ "" +:+ Py.LF))
           (7 # 10) 1500)
        out
      :: rest
    /\ Forall (fun c => is_openai c = false) rest.
Proof.
  intros env.
  apply (user_payload_deterministic env Double.haiku Double.blank
           (Double.answering "Be a poet.") eq_refl eq_refl);
    discriminate.
Defined.

(** The payload of the haiku example, spelled out. *)
Example haiku_payload :
  user_input_summary "Write a haiku" "about autumn" "3 lines" "Casual" ""
  = "**Goal:**
Write a haiku

**Context:**
about autumn

**Desired Format:**
3 lines

**Tone of Voice:**
Casual

**Constraints:**

".
Proof. reflexivity. Qed.

(** C3: when the backend answers a complete submission with a prompt that
    is not empty once stripped, and the store is not configured or its
    [create] raises, the page still returns normally, keeps the prompt in
    the session state and shows it; the failed save adds one notice (a
    warning when unconfigured, an error message when [create] raised) and
    leaves no record.  [save_to_airtable] itself always returns. *)
Theorem prompt_survives_store_failure env w_ w client content more :
  openai_client env = Some client ->
  submit_button w_ = true ->
  goal w_ <> "" -> context w_ <> "" -> output_format w_ <> "" -> tone w_ <> "" ->
  let req := request_of env system_prompt_for_generation
               (Str (user_input_summary (goal w_) (context w_) (output_format w_)
                                        (tone w_) (constraints w_))) in
  let answer := Response (Some content :: more) in
  let p := Py.strip content in
  chat_completions_create client (wire w) req = answer ->
  p <> "" ->
  match airtable_table env with
  | None => True
  | Some table =>
      saved (create table (wire w ++ [OpenAICreate req answer]) (airtable_data w_ p)) = false
  end ->
  (exists notice new,
     main_app_page env w_ w
     = (Ret tt,
        World (Session (Some p) (logged_in (session_state w)))
              (screen w ++ form_elements ++ [notice] ++ prompt_elements p)
              (wire w ++ new))
     /\ (notice = Warning "Airtable is not configured. Data not saved."
         \/ exists e, notice = Error ("Failed to save data to Airtable: " +:+ Py.str_of e))
     /\ Forall (fun c => persisted c = false) new)
  /\ (forall data w0, exists b w1, save_to_airtable env data w0 = (Ret b, w1)).
Proof.
  intros Hc Hs Hg Hx Hf Ht req answer p Hout Hp Hstore. split.
  - rewrite main_app_page_submitted
      by auto using all_required_true.
    unfold bind. rewrite (generate_and_save_run env w_ _ client) by exact Hc.
    cbn [wire screen session_state]. fold req. rewrite Hout.
    cbn [reply_text reply_notice answer]. fold p.
    rewrite (proj2 (truthy_true p) Hp), app_nil_r.
    destruct (airtable_table env) as [table|] eqn:Htab.
    + rewrite (save_to_airtable_configured env table) by exact Htab.
      cbn [wire snd]. fold answer.
      destruct (create table _ _) as [e|r] eqn:Hcr; [|discriminate Hstore].
      rewrite show_generated_prompt_run. cbn [session_state screen wire generated_prompt from_option save_notice].
      exists (Error ("Failed to save data to Airtable: " +:+ Py.str_of e)),
             [OpenAICreate req answer; AirtableCreate (airtable_data w_ p) (inl e)].
      rewrite <- !app_assoc. split; [reflexivity|].
      split; [right; eauto | repeat constructor].
    + rewrite save_to_airtable_unconfigured by exact Htab.
      rewrite show_generated_prompt_run. cbn [snd session_state screen wire generated_prompt from_option].
      exists (Warning "Airtable is not configured. Data not saved."),
             [OpenAICreate req answer].
      rewrite <- !app_assoc. split; [reflexivity|].
      split; [left; reflexivity | repeat constructor].
  - intros data w0. destruct (save_to_airtable_returns env data w0) as (b & w1 & H & _).
    eauto.
Qed.

Lemma prompt_survives_store_failure_witness :
  let env := Double.env_with (Some (Double.answering "  Be a poet.  "))
                             (Some (Double.table_holding [])) in
  (exists notice new,
     main_app_page env Double.haiku Double.blank
     = (Ret tt,
        World (Session (Some (Py.strip "  Be a poet.  ")) None)
              ([] ++ form_elements ++ [notice] ++ prompt_elements (Py.strip "  Be a poet.  "))
              ([] ++ new))
     /\ (notice = Warning "Airtable is not configured. Data not saved."
         \/ exists e, notice = Error ("Failed to save data to Airtable: " +:+ Py.str_of e))
     /\ Forall (fun c => persisted c = false) new)
  /\ (forall data w0, exists b w1, save_to_airtable env data w0 = (Ret b, w1)).
Proof.
  intros env.
  apply (prompt_survives_store_failure env Double.haiku Double.blank
           (Double.answering "  Be a poet.  ") "  Be a poet.  " []);
    try reflexivity; discriminate.
Defined.

(** C4, the claim as stated fails: two stores name the new record
    differently, and [save_to_airtable] returns the same [True] for both;
    the identifier stays on the wire. *)
Lemma save_result_ignores_record_id :
  let data := airtable_data Double.haiku "Be a poet." in
  let env_a := Double.env_with None (Some (Double.table_naming "recAAAAAAAAAAAAAA")) in
  let env_b := Double.env_with None (Some (Double.table_naming "recBBBBBBBBBBBBBB")) in
  (save_to_airtable env_a data Double.blank).1 = Ret true
  /\ (save_to_airtable env_b data Double.blank).1 = Ret true
  /\ wire (save_to_airtable env_a data Double.blank).2
     = [AirtableCreate data (inr (Record_ "recAAAAAAAAAAAAAA" data))]
  /\ wire (save_to_airtable env_b data Double.blank).2
     = [AirtableCreate data (inr (Record_ "recBBBBBBBBBBBBBB" data))].
Proof. repeat split. Qed.

(** C4, as amended: when the store accepts the new record,
    [save_to_airtable] returns [True], a flag and not the identifier, shows
    a toast and puts the one [create] call on the wire; the record the
    store answered with, identifier included, goes no further.  The data
    the page sends carries the seven submission fields and no
    identifier: naming the record is left to the store. *)
Theorem save_to_airtable_returns_flag env table data w rec :
  airtable_table env = Some table ->
  create table (wire w) data = inr rec ->
  save_to_airtable env data w
  = (Ret true,
     World (session_state w) (screen w ++ [Toast "Prompt saved to Airtable!"])
           (wire w ++ [AirtableCreate data (inr rec)]))
  /\ forall w_ p,
       dom (airtable_data w_ p)
       = list_to_set ["Goal"; "Context"; "Format"; "Tone"; "Constraints";
                      "GeneratedPrompt"; "Timestamp"].
Proof.
  intros Htab Hcr. split.
  - rewrite (save_to_airtable_configured env table) by exact Htab.
    rewrite Hcr. reflexivity.
  - intros w_ p. unfold airtable_data.
    rewrite !dom_insert_L, dom_empty_L. set_solver.
Qed.

Lemma save_to_airtable_returns_flag_witness :
  let data := airtable_data Double.haiku "Be a poet." in
  let env := Double.env_with None (Some (Double.table_naming "recAAAAAAAAAAAAAA")) in
  save_to_airtable env data Double.blank
  = (Ret true,
     World (Session None None) ([] ++ [Toast "Prompt saved to Airtable!"])
           ([] ++ [AirtableCreate data (inr (Record_ "recAAAAAAAAAAAAAA" data))]))
  /\ forall w_ p,
       dom (airtable_data w_ p)
       = list_to_set ["Goal"; "Context"; "Format"; "Tone"; "Constraints";
                      "GeneratedPrompt"; "Timestamp"].
Proof.
  intros data env.
  exact (save_to_airtable_returns_flag env (Double.table_naming "recAAAAAAAAAAAAAA")
           data Double.blank (Record_ "recAAAAAAAAAAAAAA" data) eq_refl eq_refl).
Defined.

(** ** What goes over the wire *)

Lemma emits_refl P w : emits P w w.
Proof. exists []. rewrite app_nil_r. auto. Qed.

Lemma emits_trans P a b c : emits P a b -> emits P b c -> emits P a c.
Proof.
  intros (n1 & H1 & F1) (n2 & H2 & F2). exists (n1 ++ n2).
  rewrite H2, H1, app_assoc. split; [reflexivity | apply Forall_app; auto].
Qed.

Lemma emits_same_wire P w w' : wire w' = wire w -> emits P w w'.
Proof. intros H. exists []. rewrite app_nil_r. auto. Qed.

Lemma put_emits P e : respects (emits P) (st.put e).
Proof. intros w. apply emits_same_wire. reflexivity. Qed.

Lemma set_generated_prompt_emits P p : respects (emits P) (st.set_generated_prompt p).
Proof. intros w. apply emits_same_wire. reflexivity. Qed.

Lemma set_logged_in_emits P b : respects (emits P) (st.set_logged_in b).
Proof. intros w. apply emits_same_wire. reflexivity. Qed.

Lemma remote_emits P {O} (ask : list call -> O) (log : O -> call) :
  (forall o, P (log o)) -> respects (emits P) (remote ask log).
Proof. intros H w. exists [log (ask (wire w))]. split; [reflexivity | auto]. Qed.

(** Breaks a script into its parts; [prims] settles the primitives. *)
Ltac respects_with refl trans prims :=
  repeat first
    [ apply (respects_ret _ refl)
    | apply (respects_stop _ refl)
    | apply (respects_rerun _ refl)
    | apply (respects_raise _ refl)
    | apply (respects_get_session _ refl)
    | apply (respects_lift _ refl)
    | prims
    | apply (respects_bind _ trans); [| intros ?]
    | match goal with
      | |- respects _ (if ?b then _ else _) => destruct b
      | |- respects _ (match ?x with _ => _ end) => destruct x
      end ].

Ltac emits_prims :=
  first [ apply put_emits | apply set_generated_prompt_emits
        | apply set_logged_in_emits
        | apply remote_emits; intros ?; solve [auto] ].

Ltac emits_auto P :=
  respects_with (emits_refl P) (emits_trans P) emits_prims.

Lemma call_openai_api_emits (P : call -> Prop) env system_prompt user_prompt :
  (forall req out, P (OpenAICreate req out)) ->
  respects (emits P) (call_openai_api env system_prompt user_prompt).
Proof. intros H. unfold call_openai_api. emits_auto P. Qed.

Lemma fetch_from_airtable_emits (P : call -> Prop) env :
  (forall out, P (AirtableAll out)) ->
  respects (emits P) (fetch_from_airtable env).
Proof. intros H. unfold fetch_from_airtable. emits_auto P. Qed.

(** The admin panel writes nothing to the store. *)
Lemma admin_page_emits env w_ :
  respects (emits (fun c => is_airtable_create c = false)) (admin_page env w_).
Proof.
  set (P := fun c => is_airtable_create c = false).
  assert (Hai : forall sp up, respects (emits P) (call_openai_api env sp up))
    by (intros; apply call_openai_api_emits; reflexivity).
  assert (Hfe : respects (emits P) (fetch_from_airtable env))
    by (apply fetch_from_airtable_emits; reflexivity).
  unfold admin_page, login_gate, admin_views, stored_submissions,
    submissions_table, single_prompt_analysis, batch_trend_analysis, quality_analysis,
    metadata_extraction, summary_analysis, batch_analysis.
  respects_with (emits_refl P) (emits_trans P)
    ltac:(first [ apply Hai | apply Hfe | emits_prims ]).
Qed.

(** A form that is not submitted, or is incomplete, or meets no backend,
    leaves the wire as it is. *)
Lemma main_app_page_quiet env w_ w :
  submit_button w_ = false
  \/ Py.all [goal w_; context w_; output_format w_; tone w_] = false
  \/ openai_client env = None ->
  wire (main_app_page env w_ w).2 = wire w.
Proof.
  intros H. unfold main_app_page. rewrite form_run.
  destruct (submit_button w_); cbn [andb];
    [destruct (Py.all _) eqn:Ha; cbn [negb] |].
  - destruct H as [H|[H|H]]; try discriminate.
    unfold bind. rewrite generate_and_save_unconfigured by exact H.
    rewrite show_generated_prompt_run. reflexivity.
  - reflexivity.
  - run. rewrite show_generated_prompt_run. reflexivity.
Qed.

(** C6: whatever the page, the widgets and the world, a run of the script
    calls the store's [create] only after the backend answered that run's
    request with a text that is not empty once stripped, and the record
    sent carries exactly that text as its generated prompt. *)
Theorem persisted_only_after_synthesis env w_ w :
  exists new,
    wire (main env w_ w).2 = wire w ++ new
    /\ forall data out,
         AirtableCreate data out ∈ new ->
         exists req content more,
           new = [OpenAICreate req (Response (Some content :: more));
                  AirtableCreate data out]
           /\ user_content req
              = Str (user_input_summary (goal w_) (context w_) (output_format w_)
                                        (tone w_) (constraints w_))
           /\ Py.strip content <> ""
           /\ data = airtable_data w_ (Py.strip content)
           /\ data !! "GeneratedPrompt" = Some (Py.strip content).
Proof.
  unfold main. run.
  set (w1 := World (session_state w) (screen w ++ [SidebarTitle "Navigation"]) (wire w)).
  destruct (bool_decide (page_selection w_ = "Prompt Generator")).
  - destruct (submit_button w_) eqn:Hs;
      [destruct (Py.all [goal w_; context w_; output_format w_; tone w_]) eqn:Ha;
       [destruct (openai_client env) as [client|] eqn:Hc|]|].
    2-4: exists []; rewrite main_app_page_quiet, app_nil_r by auto;
         split; [reflexivity | intros ? ? Hin; inversion Hin].
    destruct (main_app_page_wire env w_ w1 client Hc Hs Ha) as [_ Hw].
    eexists. split; [exact Hw|].
    intros data out Hin.
    destruct (chat_completions_create client (wire w1) _) as [[|[content|] more]|e];
      cbn [reply_text] in *.
    1,3,4: apply list_elem_of_singleton in Hin; discriminate Hin.
    destruct (Py.truthy (Py.strip content)) eqn:Htr;
      [|apply list_elem_of_singleton in Hin; discriminate Hin].
    unfold store_calls in *. destruct (airtable_table env) as [table|];
      [|apply list_elem_of_singleton in Hin; discriminate Hin].
    apply elem_of_cons in Hin as [Hin|Hin]; [discriminate Hin|].
    apply list_elem_of_singleton in Hin. injection Hin as -> ->.
    eexists _, content, more. split; [reflexivity|].
    split; [reflexivity|]. split; [apply truthy_true; exact Htr|].
    split; [reflexivity|].
    unfold airtable_data. simplify_map_eq. reflexivity.
  - destruct (bool_decide (page_selection w_ = "Admin Panel")).
    + destruct (admin_page_emits env w_ w1) as (new & Hw & Hall).
      exists new. split; [exact Hw|].
      intros data out Hin. rewrite Forall_forall in Hall.
      specialize (Hall _ Hin). discriminate Hall.
    + exists []. cbn [snd]. rewrite app_nil_r. split; [reflexivity|].
      intros ? ? Hin; inversion Hin.
Qed.

(** ** The admin gate *)

Lemma login_gate_open env w_ w :
  logged_in (session_state w) = Some true ->
  login_gate env w_ w = (Ret tt, w).
Proof.
  intros H. unfold login_gate. run. rewrite H. run. rewrite H.
  cbn [default negb from_option Datatypes.id]. reflexivity.
Qed.

Lemma login_gate_shut env w_ w :
  logged_in (session_state w) <> Some true ->
  login_gate env w_ w
  = if login_button w_ && bool_decide (password w_ = ADMIN_PASSWORD env)
    then (RerunScript, World (unlocked (session_state w)) (screen w) (wire w))
    else (StopScript,
          World (locked (session_state w))
                (screen w ++ if login_button w_ then [Error "Incorrect password."] else [])
                (wire w)).
Proof.
  intros H. unfold login_gate, locked, unlocked. run.
  destruct w as [[gp [[|]|]] scr wr]; cbn in H; try congruence;
    run; cbn [default negb from_option Datatypes.id];
    destruct (login_button w_); cbn [andb];
    try destruct (bool_decide (password w_ = ADMIN_PASSWORD env));
    run; rewrite ?app_nil_r; reflexivity.
Qed.

Lemma main_admin_panel env w_ w :
  page_selection w_ = "Admin Panel" ->
  main env w_ w
  = admin_page env w_
      (World (session_state w) (screen w ++ [SidebarTitle "Navigation"]) (wire w)).
Proof. intros H. unfold main. run. rewrite H. reflexivity. Qed.

(** C9: while the session is not logged in, a render of the admin page
    never reaches the admin views: it puts nothing on the wire and shows
    the page head only.  When Login is clicked with the password equal to
    [ADMIN_PASSWORD] it sets the flag and asks for a rerun; otherwise it
    leaves the flag [False], shows "Incorrect password." if Login was
    clicked, and stops the script.  Any series of wrong entries ends every
    run in this stop, never in an exception, and leaves the session logged
    out. *)
Theorem admin_gate env w_ w :
  logged_in (session_state w) <> Some true ->
  admin_page env w_ w
  = (if login_button w_ && bool_decide (password w_ = ADMIN_PASSWORD env)
     then (RerunScript,
           World (unlocked (session_state w)) (screen w ++ admin_head) (wire w))
     else (StopScript,
           World (locked (session_state w))
                 (screen w ++ admin_head
                  ++ if login_button w_ then [Error "Incorrect password."] else [])
                 (wire w)))
  /\ forall attempts,
       Forall (fun a => page_selection a = "Admin Panel"
                        /\ password a <> ADMIN_PASSWORD env) attempts ->
       Forall (fun run => run.2.1 = StopScript
                          /\ logged_in (session_state run.2.2) = Some false
                          /\ wire run.2.2 = wire w)
              (session_runs env attempts w).
Proof.
  intros H. split.
  - unfold admin_page. run.
    rewrite login_gate_shut by exact H. cbn [session_state screen wire].
    destruct (login_button w_ && bool_decide (password w_ = ADMIN_PASSWORD env));
      rewrite <- ?app_assoc; reflexivity.
  - intros attempts. revert w H.
    induction attempts as [|a rest IH]; intros w H Hall; [constructor|].
    apply Forall_cons in Hall as [[Hpage Hpw] Hrest].
    cbn [session_runs].
    assert (Hrun : main env a (fresh_page w)
                   = (StopScript,
                      World (locked (session_state w))
                            (SidebarTitle "Navigation" :: admin_head
                             ++ if login_button a then [Error "Incorrect password."] else [])
                            (wire w))).
    { rewrite main_admin_panel by exact Hpage.
      unfold admin_page. run. rewrite login_gate_shut by exact H.
      rewrite (bool_decide_eq_false_2 _ Hpw), andb_false_r.
      cbn [session_state screen wire fresh_page].
      destruct (login_button a); reflexivity. }
    rewrite Hrun. constructor.
    + cbn. auto.
    + cbn [snd]. specialize (IH (World (locked (session_state w))
                 (SidebarTitle "Navigation" :: admin_head
                  ++ (if login_button a then [Error "Incorrect password."] else []))
                 (wire w))).
      apply IH; [cbn; congruence | exact Hrest].
Qed.

Lemma admin_gate_witness :
  let env := Double.env_with None None in
  let w_ := Double.admin "guess" true false false None in
  admin_page env w_ Double.blank
  = (StopScript,
     World (Session None (Some false))
           (admin_head ++ [Error "Incorrect password."]) [])
  /\ forall attempts,
       Forall (fun a => page_selection a = "Admin Panel"
                        /\ password a <> ADMIN_PASSWORD env) attempts ->
       Forall (fun run => run.2.1 = StopScript
                          /\ logged_in (session_state run.2.2) = Some false
                          /\ wire run.2.2 = [])
              (session_runs env attempts Double.blank).
Proof.
  intros env w_.
  apply (admin_gate env w_ Double.blank). discriminate.
Defined.

(** The right password opens the gate. *)
Example right_password_logs_in :
  let env := Double.env_with None None in
  admin_page env (Double.admin "s3cret" true false false None) Double.blank
  = (RerunScript, World (Session None (Some true)) admin_head []).
Proof. reflexivity. Qed.

(** ** The session flag *)

Lemma stays_logged_in_refl w : stays_logged_in w w.
Proof. intros H. exact H. Qed.

Lemma stays_logged_in_trans a b c :
  stays_logged_in a b -> stays_logged_in b c -> stays_logged_in a c.
Proof. unfold stays_logged_in. auto. Qed.

Lemma put_stays e : respects stays_logged_in (st.put e).
Proof. intros w H. exact H. Qed.

Lemma remote_stays {O} (ask : list call -> O) (log : O -> call) :
  respects stays_logged_in (remote ask log).
Proof. intros w H. exact H. Qed.

Lemma set_generated_prompt_stays p :
  respects stays_logged_in (st.set_generated_prompt p).
Proof. intros w H. exact H. Qed.

Lemma login_gate_stays env w_ : respects stays_logged_in (login_gate env w_).
Proof. intros w H. rewrite login_gate_open by exact H. exact H. Qed.

Ltac stays_prims :=
  first [ apply put_stays | apply remote_stays
        | apply set_generated_prompt_stays | apply login_gate_stays ].

(** No page of the program takes the flag back. *)
Lemma main_stays_logged_in env w_ : respects stays_logged_in (main env w_).
Proof.
  unfold main, main_app_page, prompt_form, generate_and_save,
    show_generated_prompt, admin_page, admin_views, stored_submissions,
    submissions_table, single_prompt_analysis, batch_trend_analysis, quality_analysis,
    metadata_extraction, summary_analysis, batch_analysis,
    call_openai_api, save_to_airtable, fetch_from_airtable.
  respects_with stays_logged_in_refl stays_logged_in_trans stays_prims.
Qed.

(** ** The screen *)

Lemma screen_grows_refl w : screen_grows w w.
Proof. exists []. rewrite app_nil_r. reflexivity. Qed.

Lemma screen_grows_trans a b c :
  screen_grows a b -> screen_grows b c -> screen_grows a c.
Proof.
  intros (m1 & H1) (m2 & H2). exists (m1 ++ m2).
  rewrite H2, H1, app_assoc. reflexivity.
Qed.

Lemma put_grows e : respects screen_grows (st.put e).
Proof. intros w. exists [e]. reflexivity. Qed.

Lemma remote_grows {O} (ask : list call -> O) (log : O -> call) :
  respects screen_grows (remote ask log).
Proof. intros w. exists []. cbn. rewrite app_nil_r. reflexivity. Qed.

Ltac grows_prims := first [ apply put_grows | apply remote_grows ].

Lemma fetch_from_airtable_grows env : respects screen_grows (fetch_from_airtable env).
Proof.
  unfold fetch_from_airtable.
  respects_with screen_grows_refl screen_grows_trans grows_prims.
Qed.

Lemma call_openai_api_grows env system_prompt user_prompt :
  respects screen_grows (call_openai_api env system_prompt user_prompt).
Proof.
  unfold call_openai_api.
  respects_with screen_grows_refl screen_grows_trans grows_prims.
Qed.

(** Behind the gate the page greets the administrator first. *)
Lemma admin_page_logged_in env w_ w :
  logged_in (session_state w) = Some true ->
  exists rest,
    screen (admin_page env w_ w).2
    = screen w ++ admin_head ++ Success "Logged in successfully." :: rest.
Proof.
  intros H. unfold admin_page. run.
  rewrite login_gate_open by exact H.
  unfold admin_views. run.
  assert (Hg : respects screen_grows (stored_submissions env w_)).
  { unfold stored_submissions, submissions_table, single_prompt_analysis,
      batch_trend_analysis, quality_analysis, metadata_extraction,
      summary_analysis, batch_analysis.
    respects_with screen_grows_refl screen_grows_trans
      ltac:(first [ apply fetch_from_airtable_grows | apply call_openai_api_grows
                  | grows_prims ]). }
  match goal with
  | |- context [ stored_submissions env w_ ?w0 ] =>
      destruct (Hg w0) as (rest & Hrest); exists rest; rewrite Hrest
  end.
  cbn [screen]. rewrite <- !app_assoc. reflexivity.
Qed.

(** C10: from a session that is logged in, whatever pages are visited and
    whatever is typed or clicked, every run of the script leaves the flag
    [True] (nothing in the program resets or removes it), and every run of
    the admin page passes the gate and greets the administrator. *)
Theorem login_is_permanent env actions w :
  logged_in (session_state w) = Some true ->
  Forall (fun run =>
            logged_in (session_state run.2.2) = Some true
            /\ (page_selection run.1 = "Admin Panel" ->
                exists rest,
                  screen run.2.2
                  = SidebarTitle "Navigation" :: admin_head
                    ++ Success "Logged in successfully." :: rest))
         (session_runs env actions w).
Proof.
  revert w. induction actions as [|a rest IH]; intros w H; [constructor|].
  cbn [session_runs].
  assert (Hafter : logged_in (session_state (main env a (fresh_page w)).2) = Some true)
    by (apply main_stays_logged_in; exact H).
  constructor; [split|].
  - exact Hafter.
  - cbn [fst snd]. intros Hpage. rewrite main_admin_panel by exact Hpage.
    apply (admin_page_logged_in env a
             (World (session_state w) [SidebarTitle "Navigation"] (wire w))).
    exact H.
  - apply IH. exact Hafter.
Qed.

Lemma login_is_permanent_witness :
  let env := Double.env_with (Some (Double.answering "Be a poet."))
                             (Some (Double.table_holding [])) in
  let actions := [ Double.admin "" false false false None;
                   Double.haiku;
                   Double.admin "guess" true true true (Some "rec1") ] in
  Forall (fun run =>
            logged_in (session_state run.2.2) = Some true
            /\ (page_selection run.1 = "Admin Panel" ->
                exists rest,
                  screen run.2.2
                  = SidebarTitle "Navigation" :: admin_head
                    ++ Success "Logged in successfully." :: rest))
         (session_runs env actions Double.admin_session).
Proof.
  intros env actions.
  exact (login_is_permanent env actions Double.admin_session eq_refl).
Defined.

(** ** The analyses *)

Lemma completes_ret {A} (a : A) : completes (ret a).
Proof. intros w. exists a, w, []. rewrite app_nil_r. auto. Qed.

Lemma completes_put e : completes (st.put e).
Proof.
  intros w. eexists tt, _, []. split; [reflexivity|].
  cbn. rewrite app_nil_r. auto.
Qed.

Lemma completes_bind {A B} (m : script A) (k : A -> script B) :
  completes m -> (forall a, completes (k a)) -> completes (bind m k).
Proof.
  intros Hm Hk w. destruct (Hm w) as (a & w1 & n1 & E1 & S1 & W1 & F1).
  destruct (Hk a w1) as (b & w2 & n2 & E2 & S2 & W2 & F2).
  exists b, w2, (n1 ++ n2). unfold bind. rewrite E1, E2.
  split; [reflexivity|]. split; [congruence|].
  split; [rewrite W2, W1, app_assoc; reflexivity | apply Forall_app; auto].
Qed.

Lemma completes_call_openai_api env system_prompt user_prompt :
  completes (call_openai_api env system_prompt user_prompt).
Proof.
  intros w. destruct (openai_client env) as [client|] eqn:Hc.
  - rewrite (call_openai_api_configured env client) by exact Hc.
    eexists _, _, [_]. repeat split. repeat constructor.
  - rewrite call_openai_api_unconfigured by exact Hc.
    eexists _, _, []. cbn [wire]. rewrite app_nil_r. repeat split. constructor.
Qed.

Ltac completes_auto :=
  repeat first
    [ apply completes_ret | apply completes_put | apply completes_call_openai_api
    | apply completes_bind; [| intros ?]
    | match goal with
      | |- completes (if ?b then _ else _) => destruct b
      | |- completes (match ?x with _ => _ end) => destruct x
      end ].

Lemma completes_quality_analysis env p : completes (quality_analysis env p).
Proof. unfold quality_analysis. completes_auto. Qed.

Lemma completes_metadata_extraction env p : completes (metadata_extraction env p).
Proof. unfold metadata_extraction. completes_auto. Qed.

Lemma completes_summary_analysis env p : completes (summary_analysis env p).
Proof. unfold summary_analysis. completes_auto. Qed.

(** C8: the metadata extraction always returns.  It shows the parsed value
    when the backend gave a text that [json.loads] accepts; otherwise it
    shows text: the raw answer when there is one and it is not empty, a
    fixed notice when the call gave no text. *)
Theorem metadata_extraction_falls_back env prompt_to_analyze w :
  let reply :=
    match openai_client env with
    | None => None
    | Some client =>
        reply_text
          (chat_completions_create client (wire w)
             (request_of env
                "You are a metadata extraction AI... Return the output as a clean JSON object."
                prompt_to_analyze))
    end in
  exists notices new,
    metadata_extraction env prompt_to_analyze w
    = (Ret tt,
       World (session_state w)
             (screen w ++ Subheader "🔖 Extracted Metadata" :: notices
              ++ [match reply with
                  | Some raw =>
                      match json_loads env raw with
                      | Some v => Json v
                      | None =>
                          Text (if Py.truthy raw then raw
                                else "Could not extract metadata.")
                      end
                  | None => Text "Could not extract metadata."
                  end])
             (wire w ++ new)).
Proof.
  unfold metadata_extraction. run.
  destruct (openai_client env) as [client|] eqn:Hc.
  - rewrite (call_openai_api_configured env client) by exact Hc.
    cbn [session_state screen wire].
    match goal with |- context [reply_text ?o] => set (out := o) end.
    eexists (reply_notice out), [OpenAICreate _ out].
    destruct (reply_text out) as [raw|]; cbn [mbind option_bind Py.or_else].
    + change (Some raw ≫= json_loads env) with (json_loads env raw).
      destruct (json_loads env raw); run; rewrite <- ?app_assoc; reflexivity.
    + run. rewrite <- ?app_assoc. reflexivity.
  - rewrite call_openai_api_unconfigured by exact Hc.
    exists [Error "OpenAI client is not initialized. Cannot call API."], [].
    cbn [mbind option_bind Py.or_else]. run. rewrite app_nil_r. reflexivity.
Qed.

(** The example of the specification: an answer that is not JSON. *)
Example not_valid_json :
  let env := Double.env_with (Some (Double.answering "not valid json")) None in
  metadata_extraction env (Str "Be a poet.") Double.blank
  = (Ret tt,
     World (Session None None)
           [Subheader "🔖 Extracted Metadata"; Text "not valid json"]
           [OpenAICreate
              (request_of env
                 "You are a metadata extraction AI... Return the output as a clean JSON object."
                 (Str "Be a poet."))
              (Response [Some "not valid json"])]).
Proof. reflexivity. Qed.

(** ** The batch trend analysis *)

Lemma dropna_generated_prompt (records : list record) :
  dropna (map (at_column "GeneratedPrompt") records)
  = omap (fun r => fields r !! "GeneratedPrompt") records.
Proof.
  unfold dropna. induction records as [|r rest IH]; [reflexivity|].
  change (map (at_column "GeneratedPrompt") (r :: rest))
    with (cell_of (fields r !! "GeneratedPrompt")
          :: map (at_column "GeneratedPrompt") rest).
  destruct (fields r !! "GeneratedPrompt") as [s|] eqn:E; cbn; rewrite E, <- IH;
    reflexivity.
Qed.

Lemma find_selected (records : list record) (selected : string) :
  selected ∈ map id records ->
  exists r, List.find (fun r => bool_decide (id r = selected)) records = Some r.
Proof.
  induction records as [|r rest IH]; cbn [map List.find]; intros Hin.
  - inversion Hin.
  - destruct (bool_decide (id r = selected)) eqn:E; [eauto|].
    apply elem_of_cons in Hin as [->|Hin]; [|auto].
    rewrite bool_decide_eq_true_2 in E by reflexivity. discriminate E.
Qed.

Lemma completes_submissions_table records : completes (submissions_table records).
Proof. unfold submissions_table. completes_auto. Qed.

Lemma completes_single_prompt_analysis env w_ records :
  in_columns records "GeneratedPrompt" = true ->
  match selected_id w_ with
  | Some selected => selected ∈ map id records
  | None => True
  end ->
  completes (single_prompt_analysis env w_ records).
Proof.
  intros Hcol Hsel. unfold single_prompt_analysis.
  apply completes_bind; [apply completes_put | intros _].
  destruct (selected_id w_) as [selected|]; [|apply completes_ret].
  destruct (Py.truthy selected); [|apply completes_ret].
  unfold selected_prompt.
  destruct (find_selected records selected Hsel) as [r ->]. rewrite Hcol.
  cbn [lift].
  unfold quality_analysis, metadata_extraction, summary_analysis.
  completes_auto.
Qed.

Lemma batch_trend_analysis_run env w_ w client records :
  batch_button w_ = true ->
  in_columns records "GeneratedPrompt" = true ->
  openai_client env = Some client ->
  let req := request_of env "You are a data analyst specializing in AI prompt trends..."
               (Str (Py.join batch_separator
                       (omap (fun r => fields r !! "GeneratedPrompt") records))) in
  let out := chat_completions_create client (wire w) req in
  batch_trend_analysis env w_ records w
  = (Ret tt,
     World (session_state w)
           (screen w
            ++ [Header "📈 Batch Trend Analysis";
                Markdown "Analyze all stored prompts to identify patterns and insights."]
            ++ reply_notice out
            ++ [Subheader "Trend Analysis Report";
                Markdown (Py.or_else (reply_text out) "Could not generate batch analysis.")])
           (wire w ++ [OpenAICreate req out])).
Proof.
  intros Hb Hcol Hc req out.
  unfold batch_trend_analysis, batch_analysis, df_column. rewrite Hb, Hcol.
  run. rewrite dropna_generated_prompt.
  rewrite (call_openai_api_configured env client) by exact Hc.
  cbn [session_state screen wire]. fold req. fold out.
  rewrite <- !app_assoc. reflexivity.
Qed.

(** The admin page behind the gate, when the store answers with
    [records]. *)
Lemma admin_page_fetched env w_ w table records :
  logged_in (session_state w) = Some true ->
  airtable_table env = Some table ->
  all_records table (wire w) = inr records ->
  let w1 := World (session_state w)
                  (screen w ++ admin_head ++ [Success "Logged in successfully."])
                  (wire w ++ [AirtableAll (inr records)]) in
  admin_page env w_ w
  = match records with
    | [] =>
        (StopScript,
         World (session_state w)
               (screen w ++ admin_head
                ++ [Success "Logged in successfully.";
                    Warning "No records found in Airtable or service is not configured."])
               (wire w ++ [AirtableAll (inr [])]))
    | _ :: _ =>
        (submissions_table records;;
         single_prompt_analysis env w_ records;;
         batch_trend_analysis env w_ records) w1
    end.
Proof.
  intros Hl Htab Hall w1. unfold admin_page. run.
  rewrite login_gate_open by exact Hl.
  unfold admin_views, stored_submissions. run.
  rewrite (fetch_from_airtable_configured env table) by exact Htab.
  cbn [session_state screen wire]. rewrite Hall. cbn [fetched fetch_notice].
  rewrite app_nil_r. destruct records; run; reflexivity.
Qed.

(** C7, the claim as stated fails.  With no record in the store and the
    batch button clicked, the page stops at the warning and sends nothing
    to the backend; and a record whose generated prompt is the empty
    string is not left out of the payload. *)
Lemma batch_analysis_counterexample :
  let blank_record := Record_ "recA" {["GeneratedPrompt" := ""]} in
  let poet_record := Record_ "recB" {["GeneratedPrompt" := "Be a poet."]} in
  let env_of records :=
    Double.env_with (Some (Double.answering "Trends.")) (Some (Double.table_holding records)) in
  let click := Double.admin "" false false true None in
  main (env_of []) click Double.admin_session
  = (StopScript,
     World (Session None (Some true))
           (SidebarTitle "Navigation" :: admin_head
            ++ [Success "Logged in successfully.";
                Warning "No records found in Airtable or service is not configured."])
           [AirtableAll (inr [])])
  /\ wire (main (env_of [blank_record; poet_record]) click Double.admin_session).2
     = [AirtableAll (inr [blank_record; poet_record]);
        OpenAICreate
          (request_of (env_of []) "You are a data analyst specializing in AI prompt trends..."
             (Str ("" +:+ batch_separator +:+ "Be a poet.")))
          (Response [Some "Trends."])].
Proof. split; vm_compute; reflexivity. Qed.

(** C7, as amended: behind the gate, with a backend configured and the
    batch button clicked.  When the store answers with no record, the page
    shows a warning and stops before the batch section: nothing is sent to
    the backend.  When it answers with records of which at least one has a
    generated prompt, the page returns, and the last call on the wire is
    the batch request: its payload is the generated prompts of the
    records, in the order of the store, those without the field left out
    (an empty one is kept), joined by a line of three dashes between blank
    lines.  The calls before it are those of the single prompt
    analysis. *)
Theorem batch_trend_analysis_payload env w_ w table client records :
  logged_in (session_state w) = Some true ->
  airtable_table env = Some table ->
  all_records table (wire w) = inr records ->
  openai_client env = Some client ->
  batch_button w_ = true ->
  (records = [] ->
   admin_page env w_ w
   = (StopScript,
      World (session_state w)
            (screen w ++ admin_head
             ++ [Success "Logged in successfully.";
                 Warning "No records found in Airtable or service is not configured."])
            (wire w ++ [AirtableAll (inr [])])))
  /\ (records <> [] ->
      in_columns records "GeneratedPrompt" = true ->
      match selected_id w_ with
      | Some selected => selected ∈ map id records
      | None => True
      end ->
      exists before out,
        (admin_page env w_ w).1 = Ret tt
        /\ wire (admin_page env w_ w).2
           = wire w
             ++ AirtableAll (inr records)
             :: before
             ++ [OpenAICreate
                   (ChatRequest (OPENAI_MODEL_NAME env)
                      "You are a data analyst specializing in AI prompt trends..."
                      (Str (Py.join (Py.LF +:+ Py.LF +:+ "---" +:+ Py.LF +:+ Py.LF)
                              (omap (fun r => fields r !! "GeneratedPrompt") records)))
                      (7 # 10) 1500)
                   out]
        /\ Forall (fun c => is_openai c = true) before).
Proof.
  intros Hl Htab Hall Hc Hb. split.
  - intros ->. rewrite (admin_page_fetched env w_ w table []) by assumption.
    reflexivity.
  - intros Hne Hcol Hsel.
    rewrite (admin_page_fetched env w_ w table records) by assumption.
    destruct records as [|r0 rest]; [congruence|].
    set (records := r0 :: rest) in *.
    set (w1 := World _ _ _).
    destruct (completes_submissions_table records w1)
      as ([] & w2 & n2 & E2 & S2 & W2 & F2).
    destruct (completes_single_prompt_analysis env w_ records Hcol Hsel w2)
      as ([] & w3 & n3 & E3 & S3 & W3 & F3).
    unfold bind. rewrite E2, E3.
    rewrite (batch_trend_analysis_run env w_ w3 client records) by assumption.
    eexists (n2 ++ n3), _. split; [reflexivity|].
    split; [|apply Forall_app; auto].
    cbn [snd wire]. rewrite W3, W2. subst w1. cbn [wire].
    rewrite <- !app_assoc. reflexivity.
Qed.

Lemma batch_trend_analysis_payload_witness :
  let records := [ Record_ "recA" {["GeneratedPrompt" := "Be a poet."]};
                   Record_ "recB" {["Goal" := "Sing"]};
                   Record_ "recC" {["GeneratedPrompt" := "Be a bard."]} ] in
  let env_of records :=
    Double.env_with (Some (Double.answering "Trends.")) (Some (Double.table_holding records)) in
  let w_ := Double.admin "" false true true (Some "recC") in
  admin_page (env_of []) w_ Double.admin_session
  = (StopScript,
     World (Session None (Some true))
           ([] ++ admin_head
            ++ [Success "Logged in successfully.";
                Warning "No records found in Airtable or service is not configured."])
           ([] ++ [AirtableAll (inr [])]))
  /\ exists before out,
       (admin_page (env_of records) w_ Double.admin_session).1 = Ret tt
       /\ wire (admin_page (env_of records) w_ Double.admin_session).2
          = []
            ++ AirtableAll (inr records)
            :: before
            ++ [OpenAICreate
                  (ChatRequest "gpt-5"
                     "You are a data analyst specializing in AI prompt trends..."
                     (Str (Py.join (Py.LF +:+ Py.LF +:+ "---" +:+ Py.LF +:+ Py.LF)
                             ["Be a poet."; "Be a bard."]))
                     (7 # 10) 1500)
                  out]
       /\ Forall (fun c => is_openai c = true) before.
Proof.
  intros records env_of w_. split.
  - apply (proj1 (batch_trend_analysis_payload (env_of []) w_ Double.admin_session
                    (Double.table_holding []) (Double.answering "Trends.") []
                    eq_refl eq_refl eq_refl eq_refl eq_refl)).
    reflexivity.
  - apply (proj2 (batch_trend_analysis_payload (env_of records) w_ Double.admin_session
                    (Double.table_holding records) (Double.answering "Trends.") records
                    eq_refl eq_refl eq_refl eq_refl eq_refl)).
    + discriminate.
    + reflexivity.
    + cbn. set_solver.
Defined.

(** Records none of which has a generated prompt give a frame without
    that column: reading it raises, and nothing catches it. *)
Example missing_column_raises :
  let records := [ Record_ "recB" {["Goal" := "Sing"]} ] in
  let env := Double.env_with (Some (Double.answering "Trends."))
                             (Some (Double.table_holding records)) in
  (admin_page env (Double.admin "" false false true None) Double.admin_session).1
  = Uncaught (Py.KeyError "GeneratedPrompt").
Proof. reflexivity. Qed.

(** A complete submission with both services at hand: the record goes to
    the store after the backend's answer, with the stripped text. *)
Example haiku_is_persisted :
  let env := Double.env_with (Some (Double.answering "  Be a poet.  "))
                             (Some (Double.table_naming "rec1")) in
  let data := airtable_data Double.haiku "Be a poet." in
  wire (main env Double.haiku Double.blank).2
  = [OpenAICreate
       (request_of env system_prompt_for_generation
          (Str (user_input_summary "Write a haiku" "about autumn" "3 lines" "Casual" "")))
       (Response [Some "  Be a poet.  "]);
     AirtableCreate data (inr (Record_ "rec1" data))].
Proof. vm_compute. reflexivity. Qed.

(** * Further properties *)

(** ** Sessions, in general *)

(** What every run respects, from a page drawn afresh, holds between the
    start of a session and the end of each of its runs. *)
Lemma session_runs_respects (R : world -> world -> Prop) env :
  (forall a b c, R a b -> R b c -> R a c) ->
  (forall w, R w (fresh_page w)) ->
  (forall w_, respects R (main env w_)) ->
  forall actions w,
    Forall (fun run => R w run.2.2) (session_runs env actions w).
Proof.
  intros Htrans Hfresh Hmain actions.
  induction actions as [|a rest IH]; intros w; [constructor|].
  cbn [session_runs].
  assert (Hrun : R w (main env a (fresh_page w)).2)
    by (eapply Htrans; [apply Hfresh | apply Hmain]).
  constructor; [exact Hrun|].
  eapply Forall_impl; [apply IH|].
  intros run Hr. cbn beta in *. eapply Htrans; [exact Hrun | exact Hr].
Qed.

(** ** services.py: reading the store *)

(** X1: [fetch_from_airtable] never raises.  Without a table it shows a
    warning and returns the empty list with nothing put on the wire; with
    a table it makes one [all] call and returns what the store answered,
    or the empty list with one error message when the call raised. *)
Theorem fetch_from_airtable_never_raises env w :
  match airtable_table env with
  | None =>
      fetch_from_airtable env w
      = (Ret [],
         World (session_state w)
               (screen w ++ [Warning "Airtable is not configured. Cannot fetch data."])
               (wire w))
  | Some table =>
      let out := all_records table (wire w) in
      exists records notices,
        fetch_from_airtable env w
        = (Ret records,
           World (session_state w) (screen w ++ notices) (wire w ++ [AirtableAll out]))
        /\ match out with
           | inr answered => records = answered /\ notices = []
           | inl e =>
               records = []
               /\ notices = [Error ("Failed to fetch data from Airtable: " +:+ Py.str_of e)]
           end
  end.
Proof.
  destruct (airtable_table env) as [table|] eqn:Htab.
  - intros out. exists (fetched out), (fetch_notice out). split.
    + apply (fetch_from_airtable_configured env table). exact Htab.
    + destruct out; simpl; auto.
  - apply fetch_from_airtable_unconfigured. exact Htab.
Qed.

(** What [fetch_from_airtable] does when it ends with no record. *)
Lemma fetch_from_airtable_empty env w :
  airtable_table env = None
  \/ (exists table, airtable_table env = Some table
                    /\ fetched (all_records table (wire w)) = []) ->
  exists notices new,
    fetch_from_airtable env w
    = (Ret [], World (session_state w) (screen w ++ notices) (wire w ++ new))
    /\ Forall (fun c => is_openai c = false) new.
Proof.
  intros [Htab | (table & Htab & Hout)].
  - rewrite fetch_from_airtable_unconfigured by exact Htab.
    exists [Warning "Airtable is not configured. Cannot fetch data."], [].
    rewrite (app_nil_r (wire w)). split; [reflexivity | constructor].
  - rewrite (fetch_from_airtable_configured env table) by exact Htab.
    rewrite Hout. eexists _, [_]. split; [reflexivity | repeat constructor].
Qed.

(** X2: behind the gate, when the store is not configured, or its listing
    raises, or it holds no record, the admin page shows the notice of the
    fetch (if any), then "No records found", and stops there whatever
    buttons were clicked: nothing is sent to the backend and the session
    state is untouched. *)
Theorem admin_page_without_records env w_ w :
  logged_in (session_state w) = Some true ->
  airtable_table env = None
  \/ (exists table, airtable_table env = Some table
                    /\ fetched (all_records table (wire w)) = []) ->
  exists notices new,
    admin_page env w_ w
    = (StopScript,
       World (session_state w)
             (screen w ++ admin_head
              ++ Success "Logged in successfully."
              :: notices
              ++ [Warning "No records found in Airtable or service is not configured."])
             (wire w ++ new))
    /\ Forall (fun c => is_openai c = false) new.
Proof.
  intros Hl Hstore. unfold admin_page. run.
  rewrite login_gate_open by exact Hl.
  unfold admin_views, stored_submissions. run.
  match goal with
  | |- context [fetch_from_airtable env ?w0] =>
      destruct (fetch_from_airtable_empty env w0 Hstore) as (notices & new & -> & Hnew)
  end.
  exists notices, new. run. rewrite <- ?app_assoc.
  split; [reflexivity | exact Hnew].
Qed.

Lemma admin_page_without_records_witness :
  let env := Double.env_with (Some (Double.answering "Trends.")) (Some Fixture.table_down) in
  let w_ := Double.admin "" false true true (Some "recA") in
  exists notices new,
    admin_page env w_ Double.admin_session
    = (StopScript,
       World (Session None (Some true))
             ([] ++ admin_head
              ++ Success "Logged in successfully."
              :: notices
              ++ [Warning "No records found in Airtable or service is not configured."])
             ([] ++ new))
    /\ Forall (fun c => is_openai c = false) new.
Proof.
  intros env w_.
  apply (admin_page_without_records env w_ Double.admin_session eq_refl).
  right. exists Fixture.table_down. split; reflexivity.
Defined.

(** ** What each page leaves alone *)

Lemma same_prompt_refl w : same_prompt w w.
Proof. reflexivity. Qed.

Lemma same_prompt_trans a b c : same_prompt a b -> same_prompt b c -> same_prompt a c.
Proof. unfold same_prompt. congruence. Qed.

Lemma same_flag_refl w : same_flag w w.
Proof. reflexivity. Qed.

Lemma same_flag_trans a b c : same_flag a b -> same_flag b c -> same_flag a c.
Proof. unfold same_flag. congruence. Qed.

Lemma put_same_prompt e : respects same_prompt (st.put e).
Proof. intros w. reflexivity. Qed.

Lemma remote_same_prompt {O} (ask : list call -> O) (log : O -> call) :
  respects same_prompt (remote ask log).
Proof. intros w. reflexivity. Qed.

Lemma set_logged_in_same_prompt b : respects same_prompt (st.set_logged_in b).
Proof. intros w. reflexivity. Qed.

Lemma put_same_flag e : respects same_flag (st.put e).
Proof. intros w. reflexivity. Qed.

Lemma remote_same_flag {O} (ask : list call -> O) (log : O -> call) :
  respects same_flag (remote ask log).
Proof. intros w. reflexivity. Qed.

Lemma set_generated_prompt_same_flag p : respects same_flag (st.set_generated_prompt p).
Proof. intros w. reflexivity. Qed.

Ltac unfold_admin :=
  unfold admin_page, login_gate, admin_views, stored_submissions,
    submissions_table, single_prompt_analysis, batch_trend_analysis,
    quality_analysis, metadata_extraction, summary_analysis, batch_analysis,
    call_openai_api, fetch_from_airtable.

Ltac unfold_generator :=
  unfold main_app_page, prompt_form, generate_and_save, show_generated_prompt,
    call_openai_api, save_to_airtable.

Lemma admin_page_same_prompt env w_ : respects same_prompt (admin_page env w_).
Proof.
  unfold_admin.
  respects_with same_prompt_refl same_prompt_trans
    ltac:(first [ apply put_same_prompt | apply remote_same_prompt
                | apply set_logged_in_same_prompt ]).
Qed.

Lemma main_app_page_same_flag env w_ : respects same_flag (main_app_page env w_).
Proof.
  unfold_generator.
  respects_with same_flag_refl same_flag_trans
    ltac:(first [ apply put_same_flag | apply remote_same_flag
                | apply set_generated_prompt_same_flag ]).
Qed.

(** X3: the admin page only reads.  Whatever the session, the widgets and
    the answers of the services, a run of it never calls the store's
    [create] and leaves the generated prompt of the session as it was. *)
Theorem admin_page_read_only env w_ w :
  generated_prompt (session_state (admin_page env w_ w).2)
  = generated_prompt (session_state w)
  /\ exists new,
       wire (admin_page env w_ w).2 = wire w ++ new
       /\ Forall (fun c => is_airtable_create c = false) new.
Proof.
  split; [apply admin_page_same_prompt | apply admin_page_emits].
Qed.

(** The page always runs to its end. *)
Lemma main_app_page_returns env w_ w : (main_app_page env w_ w).1 = Ret tt.
Proof.
  unfold main_app_page. rewrite form_run.
  destruct (submit_button w_); cbn [andb];
    [destruct (Py.all _); cbn [negb]|].
  - unfold bind.
    destruct (openai_client env) as [client|] eqn:Hc.
    + rewrite (generate_and_save_run env w_ _ client) by exact Hc.
      destruct (reply_text _) as [p|]; [destruct (Py.truthy p)|];
        rewrite show_generated_prompt_run; reflexivity.
    + rewrite generate_and_save_unconfigured by exact Hc.
      rewrite show_generated_prompt_run. reflexivity.
  - reflexivity.
  - run. rewrite show_generated_prompt_run. reflexivity.
Qed.

(** X4: a run of the prompt generator page always reaches its end, never
    touches the login flag, and puts on the wire nothing, or one request to
    the backend, or one request to the backend followed by one [create] to
    the store: no second attempt, no listing of the store. *)
Theorem main_app_page_calls env w_ w :
  (main_app_page env w_ w).1 = Ret tt
  /\ logged_in (session_state (main_app_page env w_ w).2) = logged_in (session_state w)
  /\ exists new,
       wire (main_app_page env w_ w).2 = wire w ++ new
       /\ (new = []
           \/ (exists req out, new = [OpenAICreate req out])
           \/ (exists req out data saved_as,
                 new = [OpenAICreate req out; AirtableCreate data saved_as])).
Proof.
  split; [apply main_app_page_returns|].
  split; [apply main_app_page_same_flag|].
  destruct (submit_button w_) eqn:Hs;
    [destruct (Py.all [goal w_; context w_; output_format w_; tone w_]) eqn:Ha;
     [destruct (openai_client env) as [client|] eqn:Hc|]|].
  2-4: exists []; rewrite main_app_page_quiet, app_nil_r by auto; auto.
  destruct (main_app_page_wire env w_ w client Hc Hs Ha) as [_ Hw].
  eexists. split; [exact Hw|].
  destruct (reply_text _) as [p|]; [destruct (Py.truthy p)|]; eauto.
  unfold store_calls. destruct (airtable_table env); eauto 10.
Qed.

(** X5: an earlier prompt outlives a failed generation.  When the session
    holds a prompt and a complete form is submitted but the backend gives
    no usable text (it raises, or answers with nothing or with blanks),
    the page shows the error of the call, if any, and then the earlier
    prompt under "Prompt successfully generated!"; the session state is
    untouched and nothing is sent to the store. *)
Theorem failed_generation_shows_earlier_prompt env w_ w client old :
  generated_prompt (session_state w) = Some old ->
  openai_client env = Some client ->
  submit_button w_ = true ->
  goal w_ <> "" -> context w_ <> "" -> output_format w_ <> "" -> tone w_ <> "" ->
  let req := request_of env system_prompt_for_generation
               (Str (user_input_summary (goal w_) (context w_) (output_format w_)
                                        (tone w_) (constraints w_))) in
  let out := chat_completions_create client (wire w) req in
  from_option Py.truthy false (reply_text out) = false ->
  main_app_page env w_ w
  = (Ret tt,
     World (session_state w)
           (screen w ++ form_elements ++ reply_notice out ++ prompt_elements old)
           (wire w ++ [OpenAICreate req out])).
Proof.
  intros Hold Hc Hs Hg Hx Hf Ht req out Hfail.
  rewrite main_app_page_submitted by auto using all_required_true.
  unfold bind. rewrite (generate_and_save_run env w_ _ client) by exact Hc.
  cbn [wire screen session_state]. fold req. fold out.
  assert (E : match reply_text out with
              | Some p => Py.truthy p = false
              | None => True
              end) by (destruct (reply_text out); [exact Hfail | exact I]).
  destruct (reply_text out) as [p|]; [rewrite E|];
    rewrite show_generated_prompt_run; cbn [session_state screen wire];
    rewrite Hold; cbn [from_option]; rewrite <- !app_assoc; reflexivity.
Qed.

Lemma failed_generation_shows_earlier_prompt_witness :
  let env := Double.env_with (Some Fixture.failing) (Some (Double.table_naming "rec1")) in
  let req := request_of env system_prompt_for_generation
               (Str (user_input_summary "Write a haiku" "about autumn" "3 lines" "Casual" "")) in
  main_app_page env Double.haiku (Fixture.with_prompt "Be a poet.")
  = (Ret tt,
     World (Session (Some "Be a poet.") None)
           ([] ++ form_elements
            ++ [Error "An OpenAI API error occurred: rate limit"]
            ++ prompt_elements "Be a poet.")
           ([] ++ [OpenAICreate req (Raises (Py.APIError "rate limit"))])).
Proof.
  intros env req.
  apply (failed_generation_shows_earlier_prompt env Double.haiku
           (Fixture.with_prompt "Be a poet.") Fixture.failing "Be a poet.");
    try reflexivity; discriminate.
Defined.

(** ** The prompt of the session *)

Lemma prompt_kept_or_new_refl w : prompt_kept_or_new w w.
Proof. left. reflexivity. Qed.

Lemma prompt_kept_or_new_trans a b c :
  prompt_kept_or_new a b -> prompt_kept_or_new b c -> prompt_kept_or_new a c.
Proof.
  unfold prompt_kept_or_new.
  intros [Hab | (p & Hp & Hne)] [Hbc | Hbc]; auto.
  - left. congruence.
  - right. exists p. split; [congruence | exact Hne].
Qed.

Lemma same_prompt_kept w w' : same_prompt w w' -> prompt_kept_or_new w w'.
Proof. intros H. left. exact H. Qed.

Lemma generate_and_save_prompt env w_ :
  respects prompt_kept_or_new (generate_and_save env w_).
Proof.
  intros w. destruct (openai_client env) as [client|] eqn:Hc.
  - rewrite (generate_and_save_run env w_ w client) by exact Hc.
    destruct (reply_text _) as [p|]; [destruct (Py.truthy p) eqn:Hp|];
      try (left; reflexivity).
    right. exists p. split; [|apply truthy_true; exact Hp].
    match goal with
    | |- context [save_to_airtable env ?d ?w0] =>
        destruct (save_to_airtable_returns env d w0) as (b & w' & -> & Hs)
    end.
    cbn [snd]. rewrite Hs. reflexivity.
  - rewrite generate_and_save_unconfigured by exact Hc. left. reflexivity.
Qed.

Lemma main_prompt_kept_or_new env w_ : respects prompt_kept_or_new (main env w_).
Proof.
  unfold main.
  apply (respects_bind _ prompt_kept_or_new_trans);
    [intros w; left; reflexivity | intros _].
  destruct (bool_decide (page_selection w_ = "Prompt Generator")).
  - unfold main_app_page, prompt_form, show_generated_prompt.
    respects_with prompt_kept_or_new_refl prompt_kept_or_new_trans
      ltac:(first [ apply generate_and_save_prompt
                  | intros w; left; reflexivity ]).
  - destruct (bool_decide (page_selection w_ = "Admin Panel")).
    + intros w. apply same_prompt_kept, admin_page_same_prompt.
    + apply (respects_raise _ prompt_kept_or_new_refl).
Qed.

(** X6: over a whole session, whatever pages are visited and whatever the
    services answer, the prompt kept in the session state is never
    removed once set, and it is never the empty string (if it was not at
    the start). *)
Theorem session_prompt_never_lost env actions w :
  prompt_ok (session_state w) ->
  Forall (fun run =>
            prompt_ok (session_state run.2.2)
            /\ (is_Some (generated_prompt (session_state w)) ->
                is_Some (generated_prompt (session_state run.2.2))))
         (session_runs env actions w).
Proof.
  intros Hok.
  eapply Forall_impl.
  - apply (session_runs_respects prompt_kept_or_new env).
    + apply prompt_kept_or_new_trans.
    + intros w0. left. reflexivity.
    + apply main_prompt_kept_or_new.
  - intros run [Hsame | (p & Hp & Hne)]; cbn beta in *.
    + split.
      * intros q Hq. apply Hok. congruence.
      * rewrite Hsame. auto.
    + split.
      * intros q Hq. congruence.
      * intros _. rewrite Hp. eauto.
Qed.

Lemma session_prompt_never_lost_witness :
  let env := Double.env_with (Some Fixture.failing) (Some (Double.table_naming "rec1")) in
  let actions := [ Double.haiku; Double.admin "s3cret" true false false None;
                   Double.with_goal "" Double.haiku ] in
  Forall (fun run =>
            prompt_ok (session_state run.2.2)
            /\ (is_Some (Some "Be a poet.") ->
                is_Some (generated_prompt (session_state run.2.2))))
         (session_runs env actions (Fixture.with_prompt "Be a poet.")).
Proof.
  intros env actions.
  apply (session_prompt_never_lost env actions (Fixture.with_prompt "Be a poet.")).
  intros p Hp. injection Hp as <-. discriminate.
Defined.

(** ** Logging in *)

(** From a session that is logged in, every run stays logged in, and
    every run of the admin page greets the administrator. *)
Lemma session_stays_logged_in env actions : forall w,
  logged_in (session_state w) = Some true ->
  Forall (fun run =>
            logged_in (session_state run.2.2) = Some true
            /\ (page_selection run.1 = "Admin Panel" ->
                exists rest,
                  screen run.2.2
                  = SidebarTitle "Navigation" :: admin_head
                    ++ Success "Logged in successfully." :: rest))
         (session_runs env actions w).
Proof.
  induction actions as [|a rest IH]; intros w H; [constructor|].
  cbn [session_runs].
  assert (Hafter : logged_in (session_state (main env a (fresh_page w)).2) = Some true)
    by (apply main_stays_logged_in; exact H).
  constructor; [split; [exact Hafter|] | apply IH; exact Hafter].
  cbn [fst snd]. intros Hpage. rewrite main_admin_panel by exact Hpage.
  apply (admin_page_logged_in env a
           (World (session_state w) [SidebarTitle "Navigation"] (wire w))).
  exact H.
Qed.

(** X7: logging in, then using the panel.  From a session that is not
    logged in, a run of the admin page with Login clicked and the right
    password ends in a rerun with nothing put on the wire; in every run
    that follows, whatever is typed or clicked, the session is logged in
    and the admin page shows the views behind the gate. *)
Theorem login_then_admin env first actions w :
  logged_in (session_state w) <> Some true ->
  page_selection first = "Admin Panel" ->
  login_button first = true ->
  password first = ADMIN_PASSWORD env ->
  let w1 := World (unlocked (session_state w))
                  (SidebarTitle "Navigation" :: admin_head) (wire w) in
  session_runs env (first :: actions) w
  = (first, (RerunScript, w1)) :: session_runs env actions w1
  /\ Forall (fun run =>
              logged_in (session_state run.2.2) = Some true
              /\ (page_selection run.1 = "Admin Panel" ->
                  exists rest,
                    screen run.2.2
                    = SidebarTitle "Navigation" :: admin_head
                      ++ Success "Logged in successfully." :: rest))
           (session_runs env actions w1).
Proof.
  intros Hout Hpage Hclick Hpw w1.
  assert (Hrun : main env first (fresh_page w) = (RerunScript, w1)).
  { rewrite main_admin_panel by exact Hpage. unfold admin_page. run.
    rewrite login_gate_shut by exact Hout.
    rewrite Hclick, (bool_decide_eq_true_2 _ Hpw). reflexivity. }
  split.
  - cbn [session_runs]. rewrite Hrun. reflexivity.
  - apply session_stays_logged_in. reflexivity.
Qed.

Lemma login_then_admin_witness :
  let env := Double.env_with (Some (Double.answering "Trends."))
                             (Some (Double.table_holding Fixture.poet_records)) in
  let first := Double.admin "s3cret" true false false None in
  let actions := [ Double.haiku; Double.admin "guess" true false true (Some "recA") ] in
  let w1 := World (Session None (Some true))
                  (SidebarTitle "Navigation" :: admin_head) [] in
  session_runs env (first :: actions) Double.blank
  = (first, (RerunScript, w1)) :: session_runs env actions w1
  /\ Forall (fun run =>
              logged_in (session_state run.2.2) = Some true
              /\ (page_selection run.1 = "Admin Panel" ->
                  exists rest,
                    screen run.2.2
                    = SidebarTitle "Navigation" :: admin_head
                      ++ Success "Logged in successfully." :: rest))
           (session_runs env actions w1).
Proof.
  intros env first actions w1.
  apply (login_then_admin env first actions Double.blank);
    [discriminate | reflexivity | reflexivity | reflexivity].
Defined.

(** ** Services that are not configured *)

Lemma call_openai_api_silent (P : call -> Prop) env system_prompt user_prompt :
  openai_client env = None ->
  respects (emits P) (call_openai_api env system_prompt user_prompt).
Proof.
  intros H w. rewrite call_openai_api_unconfigured by exact H.
  apply emits_same_wire. reflexivity.
Qed.

Lemma save_to_airtable_silent (P : call -> Prop) env data :
  airtable_table env = None ->
  respects (emits P) (save_to_airtable env data).
Proof.
  intros H w. rewrite save_to_airtable_unconfigured by exact H.
  apply emits_same_wire. reflexivity.
Qed.

Lemma fetch_from_airtable_silent (P : call -> Prop) env :
  airtable_table env = None ->
  respects (emits P) (fetch_from_airtable env).
Proof.
  intros H w. rewrite fetch_from_airtable_unconfigured by exact H.
  apply emits_same_wire. reflexivity.
Qed.

Lemma save_to_airtable_emits (P : call -> Prop) env data :
  (forall d out, P (AirtableCreate d out)) ->
  respects (emits P) (save_to_airtable env data).
Proof. intros H. unfold save_to_airtable. emits_auto P. Qed.

(** Every call of a run satisfies [P], when those of the three helpers
    do. *)
Lemma main_emits (P : call -> Prop) env w_ :
  (forall sp up, respects (emits P) (call_openai_api env sp up)) ->
  (forall data, respects (emits P) (save_to_airtable env data)) ->
  respects (emits P) (fetch_from_airtable env) ->
  respects (emits P) (main env w_).
Proof.
  intros Hai Hsave Hfetch.
  unfold main, main_app_page, prompt_form, generate_and_save,
    show_generated_prompt, admin_page, login_gate, admin_views,
    stored_submissions, submissions_table, single_prompt_analysis,
    batch_trend_analysis, quality_analysis, metadata_extraction,
    summary_analysis, batch_analysis.
  respects_with (emits_refl P) (emits_trans P)
    ltac:(first [ apply Hai | apply Hsave | apply Hfetch | emits_prims ]).
Qed.

Lemma emits_fresh_page P w : emits P w (fresh_page w).
Proof. apply emits_same_wire. reflexivity. Qed.

(** X8: without a backend client, no run of any page in a session ever
    sends a request to the backend. *)
Theorem no_backend_no_requests env actions w :
  openai_client env = None ->
  Forall (fun run =>
            exists new, wire run.2.2 = wire w ++ new
                        /\ Forall (fun c => is_openai c = false) new)
         (session_runs env actions w).
Proof.
  intros H.
  apply (session_runs_respects (emits (fun c => is_openai c = false)) env).
  - apply emits_trans.
  - apply emits_fresh_page.
  - intros w_. apply main_emits.
    + intros sp up. apply call_openai_api_silent. exact H.
    + intros data. apply save_to_airtable_emits. reflexivity.
    + apply fetch_from_airtable_emits. reflexivity.
Qed.

Lemma no_backend_no_requests_witness :
  let env := Double.env_with None (Some (Double.table_holding Fixture.poet_records)) in
  let actions := [ Double.haiku; Double.admin "" false true true (Some "recA") ] in
  Forall (fun run =>
            exists new, wire run.2.2 = [] ++ new
                        /\ Forall (fun c => is_openai c = false) new)
         (session_runs env actions Double.admin_session).
Proof.
  intros env actions.
  exact (no_backend_no_requests env actions Double.admin_session eq_refl).
Defined.

(** X9: without a store, no run of any page in a session ever calls the
    store, to write or to read: only requests to the backend go over the
    wire. *)
Theorem no_store_no_calls env actions w :
  airtable_table env = None ->
  Forall (fun run =>
            exists new, wire run.2.2 = wire w ++ new
                        /\ Forall (fun c => is_openai c = true) new)
         (session_runs env actions w).
Proof.
  intros H.
  apply (session_runs_respects (emits (fun c => is_openai c = true)) env).
  - apply emits_trans.
  - apply emits_fresh_page.
  - intros w_. apply main_emits.
    + intros sp up. apply call_openai_api_emits. reflexivity.
    + intros data. apply save_to_airtable_silent. exact H.
    + apply fetch_from_airtable_silent. exact H.
Qed.

Lemma no_store_no_calls_witness :
  let env := Double.env_with (Some (Double.answering "Be a poet.")) None in
  let actions := [ Double.haiku; Double.admin "" false true true (Some "recA") ] in
  Forall (fun run =>
            exists new, wire run.2.2 = [] ++ new
                        /\ Forall (fun c => is_openai c = true) new)
         (session_runs env actions Double.admin_session).
Proof.
  intros env actions.
  exact (no_store_no_calls env actions Double.admin_session eq_refl).
Defined.

(** ** The table of submissions *)

Lemma in_columns_record_id records : in_columns records "record_id" = true.
Proof. reflexivity. Qed.

Lemma in_columns_iff records col :
  in_columns records col = true
  <-> col = "record_id" \/ exists r, r ∈ records /\ is_Some (fields r !! col).
Proof.
  unfold in_columns. rewrite orb_true_iff, bool_decide_eq_true, existsb_exists.
  split; (intros [H|(r & Hin & Hr)]; [left; exact H | right; exists r]).
  - apply list_elem_of_In in Hin. split; [exact Hin|].
    unfold has_field in Hr. apply bool_decide_eq_true in Hr. exact Hr.
  - split; [apply list_elem_of_In; exact Hin|].
    unfold has_field. apply bool_decide_eq_true. exact Hr.
Qed.

(** X10: the table of submissions never raises on a missing field.  The
    columns shown are those of Timestamp, Goal, Context, GeneratedPrompt
    that occur in some record, followed by record_id, which is always
    there; there is one row per record, as wide as the columns shown, and
    it ends with the identifier of the record. *)
Theorem submissions_table_shape records w :
  let shown := List.filter (in_columns records) display_columns in
  exists rows,
    submissions_table records w
    = (Ret tt,
       World (session_state w)
             (screen w ++ [Subheader "📋 All Prompt Submissions"; Dataframe shown rows])
             (wire w))
    /\ (forall col,
          col ∈ shown
          <-> col ∈ display_columns
              /\ (col = "record_id" \/ exists r, r ∈ records /\ is_Some (fields r !! col)))
    /\ last shown = Some "record_id"
    /\ length rows = length records
    /\ forall i r,
         records !! i = Some r ->
         exists row, rows !! i = Some row
                     /\ length row = length shown
                     /\ last row = Some (Str (id r)).
Proof.
  intros shown.
  exists (map (fun r => map (fun col => at_column col r) shown) records).
  assert (Hshown : shown
                   = List.filter (in_columns records)
                       ["Timestamp"; "Goal"; "Context"; "GeneratedPrompt"]
                     ++ ["record_id"]).
  { subst shown. unfold display_columns.
    change ["Timestamp"; "Goal"; "Context"; "GeneratedPrompt"; "record_id"]
      with (["Timestamp"; "Goal"; "Context"; "GeneratedPrompt"] ++ ["record_id"]).
    rewrite List.filter_app. reflexivity. }
  split; [|split; [|split; [|split]]].
  - unfold submissions_table. fold shown. run. reflexivity.
  - intros col. subst shown.
    rewrite list_elem_of_In, List.filter_In, <- list_elem_of_In, in_columns_iff.
    reflexivity.
  - rewrite Hshown. apply last_snoc.
  - apply length_map.
  - intros i r Hi. eexists. split; [rewrite list_lookup_fmap, Hi; reflexivity|].
    split; [apply length_map|].
    rewrite Hshown, map_app. cbn [map]. rewrite last_snoc. reflexivity.
Qed.

(** ** The prompt that is analysed *)

Lemma find_first {A} (P : A -> bool) (l : list A) :
  match List.find P l with
  | Some x =>
      exists before after,
        l = before ++ x :: after /\ P x = true /\ Forall (fun y => P y = false) before
  | None => Forall (fun y => P y = false) l
  end.
Proof.
  induction l as [|a l IH]; cbn [List.find]; [constructor|].
  destruct (P a) eqn:Ha.
  - exists [], l. auto.
  - destruct (List.find P l) as [x|].
    + destruct IH as (before & after & -> & Hx & Hb).
      exists (a :: before), after. auto.
    + constructor; assumption.
Qed.

Lemma no_generated_prompt_column records :
  in_columns records "GeneratedPrompt" = false
  <-> Forall (fun r => fields r !! "GeneratedPrompt" = None) records.
Proof.
  rewrite <- not_true_iff_false, in_columns_iff, Forall_forall. split.
  - intros H r Hr. destruct (fields r !! "GeneratedPrompt") eqn:E; [|reflexivity].
    exfalso. apply H. right. exists r. rewrite E. eauto.
  - intros H [Heq | (r & Hr & [v Hv])]; [discriminate Heq|].
    rewrite (H r Hr) in Hv. discriminate Hv.
Qed.

(** X11: which prompt is analysed.  For an identifier found among the
    records, the analysed cell is the generated prompt of the first record
    that bears it, NaN if that record has none while another has one; it
    is a [KeyError] when no record at all has a generated prompt, and an
    [IndexError] when no record bears the identifier. *)
Theorem selected_prompt_cases records selected :
  match selected_prompt records selected with
  | inr c =>
      exists before r after,
        records = before ++ r :: after
        /\ id r = selected
        /\ Forall (fun r' => id r' <> selected) before
        /\ c = cell_of (fields r !! "GeneratedPrompt")
        /\ Exists (fun r' => is_Some (fields r' !! "GeneratedPrompt")) records
  | inl e =>
      (e = Py.IndexError "single positional indexer is out-of-bounds"
       /\ selected ∉ map id records)
      \/ (e = Py.KeyError "GeneratedPrompt"
          /\ selected ∈ map id records
          /\ Forall (fun r => fields r !! "GeneratedPrompt" = None) records)
  end.
Proof.
  unfold selected_prompt.
  pose proof (find_first (fun r => bool_decide (id r = selected)) records) as Hf.
  destruct (List.find _ records) as [r|].
  - destruct Hf as (before & after & Hrec & Hr & Hb).
    apply bool_decide_eq_true in Hr.
    destruct (in_columns records "GeneratedPrompt") eqn:Hcol.
    + exists before, r, after. split; [exact Hrec|]. split; [exact Hr|].
      split; [|split; [reflexivity|]].
      * eapply Forall_impl; [exact Hb|]. intros r' H'. cbn beta in H'.
        apply bool_decide_eq_false in H'. exact H'.
      * apply in_columns_iff in Hcol as [Heq | (r' & Hin & Hsome)];
          [discriminate Heq|].
        apply Exists_exists. eauto.
    + right. split; [reflexivity|]. split.
      * rewrite Hrec, map_app. cbn [map]. rewrite <- Hr. set_solver.
      * apply no_generated_prompt_column. exact Hcol.
  - left. split; [reflexivity|].
    intros Hin. apply list_elem_of_fmap in Hin as (r & -> & Hr).
    rewrite Forall_forall in Hf. specialize (Hf r Hr). cbn beta in Hf.
    apply bool_decide_eq_false in Hf. congruence.
Qed.

(** Two records bear the same identifier: the first one is analysed. *)
Example selected_prompt_first :
  selected_prompt Fixture.poet_records "recA" = inr (Str "Be a poet.")
  /\ selected_prompt Fixture.poet_records "recB" = inr NaN
  /\ selected_prompt Fixture.poet_records "recZ"
     = inl (Py.IndexError "single positional indexer is out-of-bounds").
Proof. repeat split. Qed.

(** ** The three analyses of one prompt *)

(** X12: the three analyses are independent.  With a backend client, a
    selected prompt and Analyze clicked, the page sends exactly three
    requests, quality, metadata and summary in this order, each with the
    selected prompt as user payload, whatever the earlier ones answered
    or raised; each analysis shows its own result or its own fallback, and
    the script goes on. *)
Theorem single_prompt_analysis_calls env w_ w client records selected p :
  openai_client env = Some client ->
  selected_id w_ = Some selected ->
  selected <> "" ->
  selected_prompt records selected = inr p ->
  analyze_button w_ = true ->
  let ask := chat_completions_create client in
  let out1 := ask (wire w) (quality_request env p) in
  let wire1 := wire w ++ [OpenAICreate (quality_request env p) out1] in
  let out2 := ask wire1 (metadata_request env p) in
  let wire2 := wire1 ++ [OpenAICreate (metadata_request env p) out2] in
  let out3 := ask wire2 (summary_request env p) in
  single_prompt_analysis env w_ records w
  = (Ret tt,
     World (session_state w)
           (screen w
            ++ [Header "🔬 Analyze a Single Prompt";
                Markdown "#### Selected Prompt:"; Code p;
                Subheader "📊 Quality Analysis"]
            ++ reply_notice out1
            ++ [Markdown (Py.or_else (reply_text out1) "Could not generate analysis.");
                Subheader "🔖 Extracted Metadata"]
            ++ reply_notice out2
            ++ [metadata_element env (reply_text out2);
                Subheader "👍 Strengths & Weaknesses 👎"]
            ++ reply_notice out3
            ++ [Markdown (Py.or_else (reply_text out3) "Could not generate summary.")])
           (wire2 ++ [OpenAICreate (summary_request env p) out3])).
Proof.
  intros Hc Hsel Hne Hp Hb ask out1 wire1 out2 wire2 out3.
  unfold single_prompt_analysis, quality_analysis, metadata_extraction,
    summary_analysis.
  rewrite Hsel, (proj2 (truthy_true selected) Hne), Hp, Hb. run.
  rewrite (call_openai_api_configured env client) by exact Hc.
  cbn [session_state screen wire].
  fold (quality_request env p). fold ask. fold out1. fold wire1.
  rewrite (call_openai_api_configured env client) by exact Hc.
  cbn [session_state screen wire].
  fold (metadata_request env p). fold ask. fold out2. fold wire2.
  fold (metadata_element env (reply_text out2)).
  assert (Hm : forall w0,
             match reply_text out2 ≫= json_loads env with
             | Some v => st.json v
             | None => st.text (Py.or_else (reply_text out2) "Could not extract metadata.")
             end w0
             = (Ret tt,
                World (session_state w0)
                      (screen w0 ++ [metadata_element env (reply_text out2)]) (wire w0))).
  { intros w0. unfold metadata_element.
    destruct (reply_text out2 ≫= json_loads env); reflexivity. }
  unfold st.json, st.text, st.put in Hm. rewrite Hm.
  cbn [session_state screen wire].
  rewrite (call_openai_api_configured env client) by exact Hc.
  cbn [session_state screen wire].
  fold (summary_request env p). fold ask. fold out3.
  rewrite <- !app_assoc. reflexivity.
Qed.

Lemma single_prompt_analysis_calls_witness :
  let env := Double.env_with (Some Fixture.failing)
                             (Some (Double.table_holding Fixture.poet_records)) in
  let w_ := Double.admin "" false true false (Some "recA") in
  let p := Str "Be a poet." in
  let failed := Raises (Py.APIError "rate limit") in
  let notice := Error "An OpenAI API error occurred: rate limit" in
  single_prompt_analysis env w_ Fixture.poet_records Double.admin_session
  = (Ret tt,
     World (Session None (Some true))
           ([] ++ [Header "🔬 Analyze a Single Prompt";
                   Markdown "#### Selected Prompt:"; Code p;
                   Subheader "📊 Quality Analysis"]
            ++ [notice]
            ++ [Markdown "Could not generate analysis.";
                Subheader "🔖 Extracted Metadata"]
            ++ [notice]
            ++ [Text "Could not extract metadata.";
                Subheader "👍 Strengths & Weaknesses 👎"]
            ++ [notice]
            ++ [Markdown "Could not generate summary."])
           ((([] ++ [OpenAICreate (quality_request env p) failed])
             ++ [OpenAICreate (metadata_request env p) failed])
            ++ [OpenAICreate (summary_request env p) failed])).
Proof.
  intros env w_ p failed notice.
  apply (single_prompt_analysis_calls env w_ Double.admin_session Fixture.failing
           Fixture.poet_records "recA" p);
    try reflexivity; discriminate.
Defined.

(** ** The two clients *)

Lemma differs_false x literal : differs x literal = false <-> x = Some literal.
Proof.
  unfold differs. rewrite negb_false_iff, bool_decide_eq_true. reflexivity.
Qed.

Lemma airtable_wanted_false cfg :
  forallb (fun b : bool => b)
    [ differs (AIRTABLE_API_KEY cfg) "YOUR_AIRTABLE_API_KEY_HERE";
      differs (AIRTABLE_BASE_ID cfg) "YOUR_AIRTABLE_BASE_ID_HERE";
      differs (AIRTABLE_TABLE_NAME cfg) "YOUR_AIRTABLE_TABLE_NAME_HERE" ] = false
  <-> AIRTABLE_API_KEY cfg = Some "YOUR_AIRTABLE_API_KEY_HERE"
      \/ AIRTABLE_BASE_ID cfg = Some "YOUR_AIRTABLE_BASE_ID_HERE"
      \/ AIRTABLE_TABLE_NAME cfg = Some "YOUR_AIRTABLE_TABLE_NAME_HERE".
Proof.
  cbn [forallb]. rewrite andb_true_r, !andb_false_iff, !differs_false.
  reflexivity.
Qed.

Lemma openai_wanted_false (key : string) :
  Py.truthy key && differs (Some key) "YOUR_OPENAI_API_KEY_HERE" = false
  <-> key = "" \/ key = "YOUR_OPENAI_API_KEY_HERE".
Proof.
  rewrite andb_false_iff, differs_false. split.
  - intros [H|H]; [left; destruct key; [reflexivity | discriminate H]
                  | right; congruence].
  - intros [->| ->]; [left | right]; reflexivity.
Qed.

(** X13: the initialisation of the clients never raises and touches
    neither the session state nor the wire.  When it returns, the backend
    client is [None] exactly when the key is unset, empty or the
    placeholder, and the table is [None] exactly when one of the three
    Airtable settings is its placeholder (an unset or empty setting still
    builds a table).  Otherwise a constructor raised: the error is shown
    last and the script stops. *)
Theorem init_clients_outcome cfg lib w :
  session_state (init_clients cfg lib w).2 = session_state w
  /\ wire (init_clients cfg lib w).2 = wire w
  /\ match (init_clients cfg lib w).1 with
     | Ret (client, table) =>
         (client = None
          <-> OPENAI_API_KEY cfg = None
              \/ OPENAI_API_KEY cfg = Some ""
              \/ OPENAI_API_KEY cfg = Some "YOUR_OPENAI_API_KEY_HERE")
         /\ (table = None
             <-> AIRTABLE_API_KEY cfg = Some "YOUR_AIRTABLE_API_KEY_HERE"
                 \/ AIRTABLE_BASE_ID cfg = Some "YOUR_AIRTABLE_BASE_ID_HERE"
                 \/ AIRTABLE_TABLE_NAME cfg = Some "YOUR_AIRTABLE_TABLE_NAME_HERE")
     | StopScript =>
         exists e, last (screen (init_clients cfg lib w).2)
                   = Some (Error ("Failed to initialize API clients. Please check your credentials. Error: "
                                  +:+ Py.str_of e))
     | RerunScript | Uncaught _ => False
     end.
Proof.
  pose proof (airtable_wanted_false cfg) as Ha.
  assert (Ho : forall key, OPENAI_API_KEY cfg = Some key ->
               (Py.truthy key && differs (Some key) "YOUR_OPENAI_API_KEY_HERE" = false
                <-> OPENAI_API_KEY cfg = None
                    \/ OPENAI_API_KEY cfg = Some ""
                    \/ OPENAI_API_KEY cfg = Some "YOUR_OPENAI_API_KEY_HERE")).
  { intros key Hkey. rewrite openai_wanted_false, Hkey. split.
    - intros [-> | ->]; auto.
    - intros [H|[H|H]]; [discriminate H | left | right]; congruence. }
  unfold init_clients, init_failed.
  destruct (forallb _ _) eqn:Hwant;
    (destruct (OPENAI_API_KEY cfg) as [key|] eqn:Hkey;
     [specialize (Ho key eq_refl);
      destruct (Py.truthy key && differs (Some key) "YOUR_OPENAI_API_KEY_HERE") eqn:Hw;
      [destruct (new_openai lib key) as [e|c]|]|]);
    run;
    try (destruct (new_table lib _ _ _) as [e'|t]; run);
    (split; [reflexivity|]); (split; [reflexivity|]).
  all: try (eexists; rewrite last_app; reflexivity).
  all: split; (split; intros H).
  all: try discriminate H; try reflexivity.
  all: try (apply Ha in H; discriminate H).
  all: try (apply Ha; reflexivity).
  all: try (apply Ho in H; discriminate H).
  all: try (apply Ho; reflexivity).
  all: auto.
Qed.

Lemma offline_session env actions w :
  openai_client env = None ->
  airtable_table env = None ->
  Forall (fun run => wire run.2.2 = wire w) (session_runs env actions w).
Proof.
  intros Hc Ht.
  eapply Forall_impl.
  - apply (session_runs_respects (emits (fun _ => False)) env).
    + apply emits_trans.
    + apply emits_fresh_page.
    + intros w_. apply main_emits.
      * intros sp up. apply call_openai_api_silent. exact Hc.
      * intros data. apply save_to_airtable_silent. exact Ht.
      * apply fetch_from_airtable_silent. exact Ht.
  - intros run (new & Hw & Hnew). cbn beta.
    destruct new as [|c rest]; [rewrite Hw; apply app_nil_r|].
    apply Forall_cons in Hnew as [[] _].
Qed.

(** X14: with the settings left unconfigured, the application stays off
    the network.  When the backend key is unset, empty or the placeholder
    and one of the Airtable settings is its placeholder, the
    initialisation builds no client, whatever the constructors would do, shows the two
    warnings and returns; with the environment it leaves, no run of any
    page in a session puts anything on the wire. *)
Theorem unconfigured_app_stays_offline cfg lib model_name admin_password loads
    w0 actions w :
  OPENAI_API_KEY cfg = None
  \/ OPENAI_API_KEY cfg = Some ""
  \/ OPENAI_API_KEY cfg = Some "YOUR_OPENAI_API_KEY_HERE" ->
  AIRTABLE_API_KEY cfg = Some "YOUR_AIRTABLE_API_KEY_HERE"
  \/ AIRTABLE_BASE_ID cfg = Some "YOUR_AIRTABLE_BASE_ID_HERE"
  \/ AIRTABLE_TABLE_NAME cfg = Some "YOUR_AIRTABLE_TABLE_NAME_HERE" ->
  init_clients cfg lib w0
  = (Ret (None, None),
     World (session_state w0)
           (screen w0
            ++ [Warning "OpenAI API Key not configured. AI features will be disabled.";
                Warning "Airtable credentials not fully configured. Data storage will be disabled."])
           (wire w0))
  /\ Forall (fun run => wire run.2.2 = wire w)
            (session_runs (env_of_clients model_name admin_password loads (None, None))
                          actions w).
Proof.
  intros Hkey Htab. split; [|apply offline_session; reflexivity].
  unfold init_clients.
  rewrite (proj2 (airtable_wanted_false cfg) Htab).
  destruct Hkey as [-> | [-> | ->]];
    rewrite ?(proj2 (openai_wanted_false _)) by auto; run; reflexivity.
Qed.

Lemma unconfigured_app_stays_offline_witness :
  let cfg := Config (Some "") None (Some "YOUR_AIRTABLE_BASE_ID_HERE") (Some "Prompts") in
  let actions := [ Double.haiku; Double.admin "s3cret" true true true (Some "recA");
                   Double.admin "" false true true (Some "recA") ] in
  init_clients cfg Fixture.lib_ok Double.blank
  = (Ret (None, None),
     World (Session None None)
           ([] ++ [Warning "OpenAI API Key not configured. AI features will be disabled.";
                   Warning "Airtable credentials not fully configured. Data storage will be disabled."])
           [])
  /\ Forall (fun run => wire run.2.2 = [])
            (session_runs (env_of_clients "gpt-5" "s3cret" Double.loads_empty_object (None, None))
                          actions Double.blank).
Proof.
  intros cfg actions.
  apply (unconfigured_app_stays_offline cfg Fixture.lib_ok "gpt-5" "s3cret"
           Double.loads_empty_object Double.blank actions Double.blank).
  - right. left. reflexivity.
  - right. left. reflexivity.
Defined.

(** Settings that are unset or empty, but not the placeholders, still
    build a table; a constructor that raises stops the script. *)
Example unset_airtable_settings_build_a_table :
  let cfg := Config (Some "sk-live") None (Some "") None in
  (exists c t, (init_clients cfg Fixture.lib_ok Double.blank).1 = Ret (Some c, Some t))
  /\ init_clients cfg Fixture.lib_refusing_table Double.blank
     = (StopScript,
        World (Session None None)
              [Error "Failed to initialize API clients. Please check your credentials. Error: Invalid base"]
              []).
Proof. split; [eexists _, _|]; reflexivity. Qed.

(** ** The record sent to the store *)

Lemma airtable_data_lookup w_ p :
  airtable_data w_ p !! "Goal" = Some (goal w_)
  /\ airtable_data w_ p !! "Context" = Some (context w_)
  /\ airtable_data w_ p !! "Format" = Some (output_format w_)
  /\ airtable_data w_ p !! "Tone" = Some (tone w_)
  /\ airtable_data w_ p !! "Constraints" = Some (constraints w_)
  /\ airtable_data w_ p !! "GeneratedPrompt" = Some p
  /\ airtable_data w_ p !! "Timestamp" = Some (utcnow_isoformat w_)
  /\ size (airtable_data w_ p) = 7.
Proof.
  unfold airtable_data. repeat split; simplify_map_eq; reflexivity.
Qed.

(** The records a run sends to the store are built from the form of that
    run and a prompt that is not empty. *)
Lemma main_created_records env w_ w :
  exists new,
    wire (main env w_ w).2 = wire w ++ new
    /\ forall data out,
         AirtableCreate data out ∈ new ->
         exists p, p <> "" /\ data = airtable_data w_ p.
Proof.
  unfold main. run.
  set (w1 := World (session_state w) (screen w ++ [SidebarTitle "Navigation"]) (wire w)).
  destruct (bool_decide (page_selection w_ = "Prompt Generator")).
  - destruct (submit_button w_) eqn:Hs;
      [destruct (Py.all [goal w_; context w_; output_format w_; tone w_]) eqn:Ha;
       [destruct (openai_client env) as [client|] eqn:Hc|]|].
    2-4: exists []; rewrite main_app_page_quiet, app_nil_r by auto;
         split; [reflexivity | intros ? ? Hin; inversion Hin].
    destruct (main_app_page_wire env w_ w1 client Hc Hs Ha) as [_ Hw].
    eexists. split; [exact Hw|].
    intros data out Hin.
    apply elem_of_cons in Hin as [Hin|Hin]; [discriminate Hin|].
    destruct (reply_text _) as [p|]; [|inversion Hin].
    destruct (Py.truthy p) eqn:Htr; [|inversion Hin].
    unfold store_calls in Hin. destruct (airtable_table env); [|inversion Hin].
    apply list_elem_of_singleton in Hin. injection Hin as -> _.
    exists p. split; [apply truthy_true; exact Htr | reflexivity].
  - destruct (bool_decide (page_selection w_ = "Admin Panel")).
    + destruct (admin_page_emits env w_ w1) as (new & Hw & Hall).
      exists new. split; [exact Hw|].
      intros data out Hin. rewrite Forall_forall in Hall.
      specialize (Hall _ Hin). discriminate Hall.
    + exists []. cbn [snd]. rewrite app_nil_r. split; [reflexivity|].
      intros ? ? Hin; inversion Hin.
Qed.

(** X15: every record a run asks the store to create mirrors the form of
    that run: it has exactly seven columns, the five fields as they were
    typed (nothing is stripped), the time of the run, and a prompt that is
    not empty; no column hides another. *)
Theorem stored_record_mirrors_form env w_ w :
  exists new,
    wire (main env w_ w).2 = wire w ++ new
    /\ forall data out,
         AirtableCreate data out ∈ new ->
         data !! "Goal" = Some (goal w_)
         /\ data !! "Context" = Some (context w_)
         /\ data !! "Format" = Some (output_format w_)
         /\ data !! "Tone" = Some (tone w_)
         /\ data !! "Constraints" = Some (constraints w_)
         /\ data !! "Timestamp" = Some (utcnow_isoformat w_)
         /\ (exists p, data !! "GeneratedPrompt" = Some p /\ p <> "")
         /\ size data = 7.
Proof.
  destruct (main_created_records env w_ w) as (new & Hw & Hnew).
  exists new. split; [exact Hw|].
  intros data out Hin. destruct (Hnew data out Hin) as (p & Hp & ->).
  destruct (airtable_data_lookup w_ p) as (H1 & H2 & H3 & H4 & H5 & H6 & H7 & H8).
  repeat split; try assumption. exists p. split; assumption.
Qed.

(** ** Runs without a click *)

(** X16: no click, no request.  A run in which neither the form is
    submitted nor Analyze nor the batch button is clicked sends nothing to
    the backend and writes nothing to the store, whatever page is shown and
    whatever the session holds; at most the admin page lists the store. *)
Theorem idle_run_sends_nothing env w_ w :
  submit_button w_ = false ->
  analyze_button w_ = false ->
  batch_button w_ = false ->
  exists new,
    wire (main env w_ w).2 = wire w ++ new
    /\ Forall (fun c => exists out, c = AirtableAll out) new.
Proof.
  intros Hs Ha Hb.
  set (P := fun c => exists out, c = AirtableAll out).
  assert (Hfetch : respects (emits P) (fetch_from_airtable env))
    by (apply fetch_from_airtable_emits; intros out; exists out; reflexivity).
  change (emits P w (main env w_ w).2). revert w.
  change (respects (emits P) (main env w_)).
  unfold main, main_app_page, prompt_form, show_generated_prompt,
    admin_page, login_gate, admin_views, stored_submissions, submissions_table,
    single_prompt_analysis, batch_trend_analysis.
  destruct (submit_button w_); [discriminate Hs|].
  destruct (analyze_button w_); [discriminate Ha|].
  destruct (batch_button w_); [discriminate Hb|].
  cbn [andb].
  respects_with (emits_refl P) (emits_trans P)
    ltac:(first [ apply Hfetch | emits_prims ]).
Qed.

Lemma idle_run_sends_nothing_witness :
  let env := Double.env_with (Some (Double.answering "Trends."))
                             (Some (Double.table_holding Fixture.poet_records)) in
  let w_ := Double.admin "" false false false (Some "recA") in
  exists new,
    wire (main env w_ Double.admin_session).2 = [] ++ new
    /\ Forall (fun c => exists out, c = AirtableAll out) new.
Proof.
  intros env w_.
  exact (idle_run_sends_nothing env w_ Double.admin_session eq_refl eq_refl eq_refl).
Defined.
